(** * NVE Vannføringsdata: the data pipeline of [src/src/App.jsx]

    A shallow embedding of the client-side pipeline of the dashboard: the
    station search filter, the two fetch handlers, the CSV export, the chart
    points and the summary statistics.  JavaScript numbers are IEEE 754
    binary64 values, taken from the standard library's [SpecFloat]; strings
    are [string]; [null]/[undefined] fields are [option].  A handler is a
    function from the session state, and from the way its request ends, to
    the state it leaves and the requests, alerts and downloads it makes.
    Host functions the code calls and does not define ([toLowerCase],
    [Number::toString], [toLocaleDateString]) are section variables. *)

From Stdlib Require Import ZArith NArith List String Ascii Bool Lia DecimalString.
From Stdlib Require Import Permutation.
From Stdlib Require Import Floats.SpecFloat.
Import ListNotations.

Set Implicit Arguments.

(** How the evaluation of an expression ends: with a value, or with the
    [RangeError] an engine throws at a call with too many arguments. *)
Inductive Completion (A : Type) : Type :=
| Normal (value : A)
| RangeError.

Arguments RangeError {A}.

(** ** JavaScript numbers *)

Module Number.

Definition number := spec_float.

Definition prec : Z := 53.
Definition emax : Z := 1024.

Definition NaN : number := S754_nan.
Definition Infinity : number := S754_infinity false.
Definition negInfinity : number := S754_infinity true.
Definition zero : number := S754_zero false.
Definition negZero : number := S754_zero true.

(** Integers as numbers (rounded to nearest even when above 2^53). *)
Definition ofZ (z : Z) : number := binary_normalize prec emax z 0 false.
Definition ofNat (n : nat) : number := ofZ (Z.of_nat n).

(** [m * 2^e], rounded; used to write literals such as [0.1]. *)
Definition ofBinary (m e : Z) : number := binary_normalize prec emax m e false.

(** [x + y] and [x / y]. *)
Definition add (x y : number) : number := SFadd prec emax x y.
Definition div (x y : number) : number := SFdiv prec emax x y.

(** [x < y], [x <= y], [x === y] on numbers. *)
Definition ltb (x y : number) : bool := SFltb x y.
Definition leb (x y : number) : bool := SFleb x y.
Definition eqb (x y : number) : bool := SFeqb x y.

Definition isNaN (x : number) : bool :=
  match x with S754_nan => true | _ => false end.

(** ToBoolean on a number: [+0], [-0] and [NaN] are falsy. *)
Definition toBoolean (x : number) : bool :=
  match x with
  | S754_zero _ | S754_nan => false
  | _ => true
  end.

(** One step of [Math.min]'s loop (ECMAScript 21.3.2.25): [None] is the
    early return of NaN. *)
Definition min_step (lowest : option number) (x : number) : option number :=
  match lowest with
  | None => None
  | Some lo =>
      match x, lo with
      | S754_nan, _ => None
      | S754_zero true, S754_zero false => Some x
      | _, _ => if ltb x lo then Some x else Some lo
      end
  end.

(** The loop of [Math.min] over the arguments it was given. *)
Definition lowest (args : list number) : number :=
  match fold_left min_step args (Some Infinity) with
  | Some lo => lo
  | None => NaN
  end.

(** [Math.min(...args)]: a call with one argument per element.  An engine
    accepts at most [argumentLimit] arguments in a call and throws a
    [RangeError] beyond. *)
Definition Math_min (argumentLimit : N) (args : list number)
  : Completion number :=
  if (N.of_nat (List.length args) <=? argumentLimit)%N then Normal (lowest args)
  else RangeError.

(** One step of [Math.max]'s loop (ECMAScript 21.3.2.24). *)
Definition max_step (highest : option number) (x : number) : option number :=
  match highest with
  | None => None
  | Some hi =>
      match x, hi with
      | S754_nan, _ => None
      | S754_zero false, S754_zero true => Some x
      | _, _ => if ltb hi x then Some x else Some hi
      end
  end.

(** The loop of [Math.max] over the arguments it was given. *)
Definition highest (args : list number) : number :=
  match fold_left max_step args (Some negInfinity) with
  | Some hi => hi
  | None => NaN
  end.

(** [Math.max(...args)], under the same limit. *)
Definition Math_max (argumentLimit : N) (args : list number)
  : Completion number :=
  if (N.of_nat (List.length args) <=? argumentLimit)%N then Normal (highest args)
  else RangeError.

End Number.

Import Number.

(** ** The data the API returns *)

(** One entry of [observations]: [{time, value}], [value] may be [null]. *)
Record Observation := mkObservation {
  time : string;
  value : option number
}.

(** The object [fetchStationData] stores with [setStationData]. *)
Record StationData := mkStationData {
  sd_stationId : string;
  sd_stationName : string;
  sd_parameter : string;
  sd_unit : string;
  observations : list Observation
}.

(** ** Summary statistics *)

Record Stats := mkStats {
  count : number;
  min : number;
  max : number;
  avg : number
}.

(** [v || 0] for a [value] that is a number or [null]. *)
Definition orZero (v : option number) : number :=
  match v with
  | Some x => if toBoolean x then x else zero
  | None => zero
  end.

(** [stationData.observations.length] *)
Definition length_of (A : Type) (l : list A) : number := ofNat (List.length l).

(** [const stats = stationData ? {...} : null], evaluated at every render
    by an engine that accepts [argumentLimit] arguments in a call: the two
    spread calls throw on a longer series, the [reduce] does not. *)
Definition stats (argumentLimit : N) (stationData : option StationData)
  : Completion (option Stats) :=
  match stationData with
  | Some sd =>
      match Math_min argumentLimit
                     (map (fun o => orZero (value o)) (observations sd)),
            Math_max argumentLimit
                     (map (fun o => orZero (value o)) (observations sd))
      with
      | Normal lo, Normal hi =>
          Normal (Some {|
            count := length_of (observations sd);
            min := lo;
            max := hi;
            avg := div (fold_left (fun sum o => add sum (orZero (value o)))
                                  (observations sd) zero)
                       (length_of (observations sd))
          |})
      | _, _ => RangeError
      end
  | None => Normal None
  end.

(** ** Strings *)

Local Open Scope string_scope.

(** [s.includes(term)]: [term] occurs in [s] at some offset. *)
Fixpoint includes (s term : string) : bool :=
  String.prefix term s ||
  match s with
  | EmptyString => false
  | String _ s' => includes s' term
  end.

(** ["\n"] *)
Definition newline_char : ascii := ascii_of_nat 10.
Definition newline : string := String newline_char EmptyString.

(** [s.split("\n")] *)
Fixpoint split_lines (s : string) : list string :=
  match s with
  | EmptyString => [EmptyString]
  | String c s' =>
      if Ascii.eqb c newline_char then EmptyString :: split_lines s'
      else match split_lines s' with
           | line :: rest => String c line :: rest
           | [] => [String c EmptyString]
           end
  end.

(** ASCII lowering, the restriction of [toLowerCase] to ASCII text. *)
Definition lower_char (c : ascii) : ascii :=
  let n := nat_of_ascii c in
  if (65 <=? n)%nat && (n <=? 90)%nat then ascii_of_nat (n + 32) else c.

Fixpoint ascii_toLowerCase (s : string) : string :=
  match s with
  | EmptyString => EmptyString
  | String c s' => String (lower_char c) (ascii_toLowerCase s')
  end.

(** ** Stations and the search filter *)

(** A station record of [/Stations]; the filter reads every field through
    [?.], so each may be missing. *)
Record Station := mkStation {
  stationId : option string;
  stationName : option string;
  riverName : option string
}.

Section SearchFilter.

(** [String.prototype.toLowerCase], Unicode-aware in the host. *)
Variable toLowerCase : string -> string.

(** [field?.toLowerCase().includes(term)], [undefined] read as falsy. *)
Definition lowered_includes (field : option string) (term : string) : bool :=
  match field with
  | Some f => includes (toLowerCase f) term
  | None => false
  end.

(** [field?.includes(term)] *)
Definition raw_includes (field : option string) (term : string) : bool :=
  match field with
  | Some f => includes f term
  | None => false
  end.

(** The callback given to [stations.filter]; [term] is already lowered. *)
Definition station_matches (term : string) (s : Station) : bool :=
  lowered_includes (stationName s) term ||
  lowered_includes (riverName s) term ||
  raw_includes (stationId s) term.

(** The search effect (lines 50-63): the value given to
    [setFilteredStations] for [stations] and [searchTerm]. *)
Definition filterStations (stations : list Station) (searchTerm : string)
  : list Station :=
  match searchTerm with
  | EmptyString => stations
  | _ =>
      let term := toLowerCase searchTerm in
      filter (station_matches term) stations
  end.

End SearchFilter.

(** ** Session state and the outside world *)

(** The [useState] cells of [App]. *)
Record State := mkState {
  apiKey : string;
  stations : list Station;
  filteredStations : list Station;
  searchTerm : string;
  selectedStation : option Station;
  stationData : option StationData;
  loading : bool;
  startDate : string;
  endDate : string;
  parameter : string;
  showApiKeyInput : bool
}.

Definition setStations (v : list Station) (st : State) : State :=
  mkState (apiKey st) v (filteredStations st) (searchTerm st)
          (selectedStation st) (stationData st) (loading st) (startDate st)
          (endDate st) (parameter st) (showApiKeyInput st).

Definition setFilteredStations (v : list Station) (st : State) : State :=
  mkState (apiKey st) (stations st) v (searchTerm st)
          (selectedStation st) (stationData st) (loading st) (startDate st)
          (endDate st) (parameter st) (showApiKeyInput st).

Definition setStationData (v : option StationData) (st : State) : State :=
  mkState (apiKey st) (stations st) (filteredStations st) (searchTerm st)
          (selectedStation st) v (loading st) (startDate st)
          (endDate st) (parameter st) (showApiKeyInput st).

Definition setLoading (v : bool) (st : State) : State :=
  mkState (apiKey st) (stations st) (filteredStations st) (searchTerm st)
          (selectedStation st) (stationData st) v (startDate st)
          (endDate st) (parameter st) (showApiKeyInput st).

Definition setShowApiKeyInput (v : bool) (st : State) : State :=
  mkState (apiKey st) (stations st) (filteredStations st) (searchTerm st)
          (selectedStation st) (stationData st) (loading st) (startDate st)
          (endDate st) (parameter st) v.

(** The search effect as it acts on the session: it runs when [searchTerm]
    or [stations] changes. *)
Definition searchEffect (toLowerCase : string -> string) (st : State) : State :=
  setFilteredStations (filterStations toLowerCase (stations st) (searchTerm st)) st.

(** The two requests, by what the code puts in them. *)
Inductive Request :=
| GetStations (key : string)
| GetObservations (key : string) (station_id : option string)
                  (parameter_code resolution_time reference_time : string).

(** What a handler does besides setting state. *)
Inductive Event :=
| Fetch (request : Request)
| Alert (message : string)
| Download (filename mime content : string).

(** How [fetch] followed by [response.json()] and the read of [.data] can
    end.  The HTTP status is carried along; the code never reads it. *)
Inductive Response (A : Type) : Type :=
| NetworkError (message : string)
    (* [fetch] rejects *)
| NotJson (status : Z) (message : string)
    (* [response.json()] rejects: the body is not JSON *)
| JsonNull (status : Z) (message : string)
    (* the body is the JSON [null]: reading [.data] throws a TypeError *)
| Json (status : Z) (data : option A).
    (* the body is JSON; [data] is its [data] field, [None] when the field
       is missing, [null] or otherwise falsy; a field that is there holds
       what the API documents, an array *)

Arguments NetworkError {A} message.
Arguments NotJson {A} status message.
Arguments JsonNull {A} status message.
Arguments Json {A} status data.

(** A handler: the state it leaves and what it did, in order. *)
Definition Handler := State -> State * list Event.

(** [x || []] *)
Definition orEmpty (A : Type) (x : option (list A)) : list A :=
  match x with
  | Some l => l
  | None => []
  end.

(** ** Catalog fetcher *)

(** [fetchStations] (lines 29-48) is [async].  Up to its [await]: the
    guard, [setLoading(true)] and the request; [None] is the early return. *)
Definition fetchStations_send (st : State) : option (State * Request) :=
  if (apiKey st =? "")%string then None
  else Some (setLoading true st, GetStations (apiKey st)).

(** [fetchStations] from the end of its request on: the rest of the [try],
    the [catch] and [setLoading(false)].  The setters write into the session
    of that moment, whatever happened since the request left. *)
Definition fetchStations_resume (response : Response (list Station))
  : Handler :=
  fun st =>
    match response with
    | Json _ data =>
        let st := setStations (orEmpty data) st in
        let st := setFilteredStations (orEmpty data) st in
        let st := setShowApiKeyInput false st in
        (setLoading false st, [])
    | NetworkError m | NotJson _ m | JsonNull _ m =>
        (setLoading false st, [Alert ("Error fetching stations: " ++ m)])
    end.

(** A call of [fetchStations] whose request ends, as [response] says,
    before anything else happens on the page. *)
Definition fetchStations (response : Response (list Station)) : Handler :=
  fun st =>
    match fetchStations_send st with
    | None => (st, [])
    | Some (st, request) =>
        let '(st, events) := fetchStations_resume response st in
        (st, Fetch request :: events)
    end.

(** ** Observation fetcher *)

(** One series group of [/Observations]. *)
Record SeriesGroup := mkSeriesGroup {
  g_stationId : string;
  g_stationName : string;
  g_parameterName : string;
  g_unit : string;
  g_observations : option (list Observation)
}.

(** [fetchStationData] (lines 65-102) is [async].  Up to its [await]: the
    guard, [setLoading(true)], [setStationData(null)] and the request;
    [None] is the early return. *)
Definition fetchStationData_send (stationId : option string) (st : State)
  : option (State * Request) :=
  if (apiKey st =? "")%string || (startDate st =? "")%string
     || (endDate st =? "")%string
  then None
  else
    Some (setStationData None (setLoading true st),
          GetObservations (apiKey st) stationId (parameter st) "0"
                          (startDate st ++ "/" ++ endDate st)).

(** [fetchStationData] from the end of its request on.  A body without a
    group, and a request that throws, write no series: what is on the page
    at that moment stays. *)
Definition fetchStationData_resume (response : Response (list SeriesGroup))
  : Handler :=
  fun st =>
    match response with
    | Json _ (Some (data :: _)) =>
        let st := setStationData
                    (Some {| sd_stationId := g_stationId data;
                             sd_stationName := g_stationName data;
                             sd_parameter := g_parameterName data;
                             sd_unit := g_unit data;
                             observations := orEmpty (g_observations data) |})
                    st in
        (setLoading false st, [])
    | Json _ _ => (setLoading false st, [])
    | NetworkError m | NotJson _ m | JsonNull _ m =>
        (setLoading false st, [Alert ("Error fetching station data: " ++ m)])
    end.

(** A call of [fetchStationData] whose request ends, as [response] says,
    before anything else happens on the page. *)
Definition fetchStationData (stationId : option string)
    (response : Response (list SeriesGroup)) : Handler :=
  fun st =>
    match fetchStationData_send stationId st with
    | None => (st, [])
    | Some (st, request) =>
        let '(st, events) := fetchStationData_resume response st in
        (st, Fetch request :: events)
    end.

(** ** Derived views: CSV export and chart points *)

Section CsvExport.

(** [Number::toString], as [Array.prototype.join] applies it. *)
Variable numberToString : number -> string.

(** An element of the row array as [join] renders it: [null] is empty. *)
Definition cell (v : option number) : string :=
  match v with
  | Some x => numberToString x
  | None => ""
  end.

(** [const headers], [const rows] and [const csv] of [downloadCSV]. *)
Definition headers (sd : StationData) : list string :=
  ["Time"; "Value (" ++ sd_unit sd ++ ")"].

Definition rows (sd : StationData) : list string :=
  map (fun obs => String.concat "," [time obs; cell (value obs)])
      (observations sd).

Definition csv (sd : StationData) : string :=
  String.concat newline (String.concat "," (headers sd) :: rows sd).

(** [downloadCSV] (lines 104-119). *)
Definition downloadCSV : Handler :=
  fun st =>
    match stationData st with
    | None => (st, [])
    | Some sd =>
        match observations sd with
        | [] => (st, [])
        | _ :: _ =>
            (st, [Download (sd_stationId sd ++ "_" ++ startDate st ++ "_"
                              ++ endDate st ++ ".csv")
                           "text/csv" (csv sd)])
        end
    end.

End CsvExport.

Record ChartPoint := mkChartPoint {
  cp_time : string;
  cp_value : option number
}.

Section Chart.

(** [new Date(t).toLocaleDateString('no-NO', {...})] *)
Variable toLocaleDateString : string -> string.

(** [const chartData] (lines 121-129). *)
Definition chartData (stationData : option StationData) : list ChartPoint :=
  match stationData with
  | Some sd =>
      map (fun obs => mkChartPoint (toLocaleDateString (time obs)) (value obs))
          (observations sd)
  | None => []
  end.

End Chart.

(** ** Scenario data *)

(** Whether a status is in the success range, as [response.ok] reports it;
    the handlers never ask. *)
Definition http_ok (status : Z) : bool := (200 <=? status)%Z && (status <=? 299)%Z.

Definition glomma : Station := mkStation (Some "1") (Some "Elv A") (Some "Glomma").
Definition gaula : Station := mkStation (Some "2") (Some "Elv B") (Some "Gaula").

(** A session past the key screen, with a catalog and a date range. *)
Definition connected : State :=
  mkState "key" [glomma; gaula] [glomma; gaula] "" None None false
          "2024-01-01" "2024-01-08" "1001" false.

(** The session as [useState] initialises it, once a key is typed. *)
Definition first_visit : State :=
  mkState "key" [] [] "" None None false "" "" "1001" true.

(** Whether a string holds no line break. *)
Fixpoint line_free (s : string) : bool :=
  match s with
  | EmptyString => true
  | String c s' => negb (Ascii.eqb c newline_char) && line_free s'
  end.

(** The integer a number stands for, if it is one. *)
Definition integer_of (x : number) : option Z :=
  match x with
  | S754_zero _ => Some 0%Z
  | S754_finite s m e =>
      if (0 <=? e)%Z then Some (cond_Zopp s (Zpos m * 2 ^ e))
      else if (Zpos m mod 2 ^ (- e) =? 0)%Z
           then Some (cond_Zopp s (Zpos m / 2 ^ (- e)))
           else None
  | _ => None
  end.

(** [Number::toString] on integers of magnitude below 10^21, which print as
    their decimal digits; the scenarios use no other number. *)
Definition integerToString (x : number) : string :=
  match integer_of x with
  | Some z => NilZero.string_of_int (Z.to_int z)
  | None => ""
  end.

(** The rows as the specification words them: the header with the unit, and
    per observation the timestamp, a comma and the value. *)
Definition header_row (sd : StationData) : string :=
  "Time,Value (" ++ sd_unit sd ++ ")".

Definition data_row (numberToString : number -> string) (o : Observation)
  : string :=
  time o ++ "," ++ cell numberToString (value o).

(** The series of scenario 2. *)
Definition scenario2 : list Observation :=
  [ mkObservation "2024-01-01T00:00:00Z" (Some (ofZ 10));
    mkObservation "2024-01-01T01:00:00Z" None;
    mkObservation "2024-01-01T02:00:00Z" (Some (ofZ 20)) ].

Definition series (unit : string) (l : list Observation) : StationData :=
  mkStationData "2.13.0" "Elv A" "Discharge" unit l.

(** A session showing a fetched series. *)
Definition viewing (sd : StationData) : State :=
  mkState "key" [glomma; gaula] [glomma; gaula] "" (Some glomma) (Some sd) false
          "2024-01-01" "2024-01-08" "1001" false.

(** A series whose unit holds a line break. *)
Definition line_break_series : StationData :=
  series ("m3" ++ newline ++ "s") [mkObservation "2024-01-01T00:00:00Z" None].

(** An argument limit for the scenarios: the 65536 of JavaScriptCore; the
    limits of V8 and SpiderMonkey are higher and as finite. *)
Definition engine_limit : N := 65536.

(** A series of [n] readings of 1, as many as a long date range at native
    resolution returns. *)
Definition long_series (n : N) : StationData :=
  series "m3/s"
         (repeat (mkObservation "2024-01-01T00:00:00Z" (Some (ofZ 1)))
                 (N.to_nat n)).

(** The statistics object of a series, were its evaluation to succeed. *)
Definition summary (sd : StationData) : Stats :=
  {| count := length_of (observations sd);
     min := lowest (map (fun o => orZero (value o)) (observations sd));
     max := highest (map (fun o => orZero (value o)) (observations sd));
     avg := div (fold_left (fun sum o => add sum (orZero (value o)))
                           (observations sd) zero)
                (length_of (observations sd)) |}.

(** [0.1], the binary64 number nearest to one tenth. *)
Definition tenth : number := ofBinary 7205759403792794 (-56).

(** Three readings of [0.1]. *)
Definition three_tenths : list Observation :=
  [ mkObservation "2024-01-01T00:00:00Z" (Some tenth);
    mkObservation "2024-01-01T01:00:00Z" (Some tenth);
    mkObservation "2024-01-01T02:00:00Z" (Some tenth) ].

(** ** Words of the specification about statistics *)

(** A value with [null] replaced by 0. *)
Definition nullAsZero (v : option number) : number :=
  match v with
  | Some x => x
  | None => zero
  end.

(** The sum of a sequence, added up from 0 in sequence order. *)
Definition total (l : list number) : number := fold_left add l zero.

(** The same number, the sign of a zero apart. *)
Inductive same_number : number -> number -> Prop :=
| same_exact : forall x, same_number x x
| same_zeros : forall s s', same_number (S754_zero s) (S754_zero s').

(** [m] is the minimum (maximum) of [l]: one of its numbers, and below
    (above) all of them. *)
Definition least (m : number) (l : list number) : Prop :=
  (exists x, In x l /\ same_number m x)
  /\ forall x, In x l -> leb m x = true.

Definition greatest (m : number) (l : list number) : Prop :=
  (exists x, In x l /\ same_number m x)
  /\ forall x, In x l -> leb x m = true.

(** No NaN among the numbers. *)
Definition NaN_free (l : list number) : Prop :=
  Forall (fun x => isNaN x = false) l.

(** The place of a number other than NaN on the number line: its class
    (infinite, finite, zero), then exponent, then mantissa, signed. *)
Definition key (x : number) : Z * Z * Z :=
  match x with
  | S754_infinity true => (-2, 0, 0)%Z
  | S754_finite true m e => (-1, - e, - Zpos m)%Z
  | S754_zero _ | S754_nan => (0, 0, 0)%Z
  | S754_finite false m e => (1, e, Zpos m)%Z
  | S754_infinity false => (2, 0, 0)%Z
  end.

Definition lex_lt (a b : Z * Z * Z) : Prop :=
  let '(a1, a2, a3) := a in
  let '(b1, b2, b3) := b in
  (a1 < b1 \/ (a1 = b1 /\ (a2 < b2 \/ (a2 = b2 /\ a3 < b3))))%Z.

Definition lex_le (a b : Z * Z * Z) : Prop :=
  let '(a1, a2, a3) := a in
  let '(b1, b2, b3) := b in
  (a1 < b1 \/ (a1 = b1 /\ (a2 < b2 \/ (a2 = b2 /\ a3 <= b3))))%Z.

(** ** Order-preserving sub-sequences *)

Inductive Subsequence (A : Type) : list A -> list A -> Prop :=
| sub_done : Subsequence [] []
| sub_keep : forall x kept all, Subsequence kept all -> Subsequence (x :: kept) (x :: all)
| sub_drop : forall x kept all, Subsequence kept all -> Subsequence kept (x :: all).

#[local] Hint Constructors Subsequence : core.

(** ** The page: its controls and what they run *)

Definition setApiKey (v : string) (st : State) : State :=
  mkState v (stations st) (filteredStations st) (searchTerm st)
          (selectedStation st) (stationData st) (loading st) (startDate st)
          (endDate st) (parameter st) (showApiKeyInput st).

Definition setSearchTerm (v : string) (st : State) : State :=
  mkState (apiKey st) (stations st) (filteredStations st) v
          (selectedStation st) (stationData st) (loading st) (startDate st)
          (endDate st) (parameter st) (showApiKeyInput st).

Definition setSelectedStation (v : option Station) (st : State) : State :=
  mkState (apiKey st) (stations st) (filteredStations st) (searchTerm st)
          v (stationData st) (loading st) (startDate st)
          (endDate st) (parameter st) (showApiKeyInput st).

Definition setStartDate (v : string) (st : State) : State :=
  mkState (apiKey st) (stations st) (filteredStations st) (searchTerm st)
          (selectedStation st) (stationData st) (loading st) v
          (endDate st) (parameter st) (showApiKeyInput st).

Definition setEndDate (v : string) (st : State) : State :=
  mkState (apiKey st) (stations st) (filteredStations st) (searchTerm st)
          (selectedStation st) (stationData st) (loading st) (startDate st)
          v (parameter st) (showApiKeyInput st).

Definition setParameter (v : string) (st : State) : State :=
  mkState (apiKey st) (stations st) (filteredStations st) (searchTerm st)
          (selectedStation st) (stationData st) (loading st) (startDate st)
          (endDate st) v (showApiKeyInput st).

(** The session after the first render and its effects (lines 8-27):
    [envKey] is [import.meta.env.VITE_NVE_API_KEY], empty when unset;
    [weekAgo] and [today] are the two [toISOString().split('T')[0]] dates the
    mount effect stores. *)
Definition mount (envKey weekAgo today : string) : State :=
  mkState envKey [] [] "" None None false weekAgo today "1001"
          (envKey =? "")%string.

(** The [value]s of the parameter [<option>]s (lines 253-258). *)
Definition parameterOptions : list string :=
  ["1001"; "1000"; "1003"; "17"; "2001"; "3001"].

(** [filteredStations.slice(0, 50)], the stations that get a button. *)
Definition shownStations (st : State) : list Station :=
  firstn 50 (filteredStations st).

(** What the user can do; a request's end comes with the action that sends
    it, and each handler runs to its end before the next action. *)
Inductive Action :=
| TypeKey (text : string)
    (* key field [onChange] *)
| PressEnter (response : Response (list Station))
    (* key field [onKeyPress] with Enter *)
| ClickConnect (response : Response (list Station))
    (* the connect button *)
| TypeSearch (text : string)
    (* search field [onChange] *)
| ClickStation (index : nat) (response : Response (list SeriesGroup))
    (* the button of the station at [index] of the shown list *)
| ChooseParameter (code : string)
| PickStartDate (date : string)
| PickEndDate (date : string)
| ClickRefresh (response : Response (list SeriesGroup))
| ClickDownload.

Definition is_some (A : Type) (x : option A) : bool :=
  match x with Some _ => true | None => false end.

(** Whether the control of an action is on the page and enabled: the key
    screen replaces the page while [showApiKeyInput] (line 138); the connect
    button is [disabled={!apiKey || loading}]; the refresh button is there
    with a selected station and [disabled={loading}]; the download button is
    inside the [stationData &&] panel. *)
Definition available (a : Action) (st : State) : bool :=
  match a with
  | TypeKey _ | PressEnter _ => showApiKeyInput st
  | ClickConnect _ =>
      showApiKeyInput st && negb ((apiKey st =? "")%string || loading st)
  | TypeSearch _ | PickStartDate _ | PickEndDate _ => negb (showApiKeyInput st)
  | ChooseParameter code =>
      negb (showApiKeyInput st) && existsb (String.eqb code) parameterOptions
  | ClickStation index _ =>
      negb (showApiKeyInput st) && is_some (nth_error (shownStations st) index)
  | ClickRefresh _ =>
      negb (showApiKeyInput st) && is_some (selectedStation st)
      && negb (loading st)
  | ClickDownload => negb (showApiKeyInput st) && is_some (stationData st)
  end.

Section Page.

Variable toLowerCase : string -> string.
Variable numberToString : number -> string.

(** [fetchStations] followed by the render it causes: a parsed body sets
    [stations] to a new array, so the search effect runs again. *)
Definition connect (response : Response (list Station)) : Handler :=
  fun st =>
    let '(st', events) := fetchStations response st in
    match response with
    | Json _ _ =>
        if (apiKey st =? "")%string then (st', events)
        else (searchEffect toLowerCase st', events)
    | _ => (st', events)
    end.

(** What an action runs. *)
Definition act (a : Action) : Handler :=
  fun st =>
    match a with
    | TypeKey text => (setApiKey text st, [])
    | PressEnter response | ClickConnect response => connect response st
    | TypeSearch text =>
        if (text =? searchTerm st)%string then (st, [])
        else (searchEffect toLowerCase (setSearchTerm text st), [])
    | ClickStation index response =>
        match nth_error (shownStations st) index with
        | Some station =>
            fetchStationData (stationId station) response
                             (setSelectedStation (Some station) st)
        | None => (st, [])
        end
    | ChooseParameter code => (setParameter code st, [])
    | PickStartDate date => (setStartDate date st, [])
    | PickEndDate date => (setEndDate date st, [])
    | ClickRefresh response =>
        match selectedStation st with
        | Some station => fetchStationData (stationId station) response st
        | None => (st, [])
        end
    | ClickDownload => downloadCSV numberToString st
    end.

(** A sequence of actions, each on the page the previous one left; [None]
    when one of them has no enabled control. *)
Fixpoint run (actions : list Action) (st : State)
  : option (State * list Event) :=
  match actions with
  | [] => Some (st, [])
  | a :: rest =>
      if available a st then
        let '(st', events) := act a st in
        match run rest st' with
        | Some (st'', events') => Some (st'', (events ++ events')%list)
        | None => None
        end
      else None
  end.

End Page.

(** ** The page with requests under way *)

(** The handlers are [async]: between the moment a request leaves and the
    moment it ends the page stays live, other controls can be used and other
    requests can end.  A page is the session with the requests that have
    left and not ended, oldest first. *)
Record Page := mkPage {
  session : State;
  under_way : list Request
}.

(** The controls, without the end of the request they may send. *)
Inductive Control :=
| KeyField (text : string)
| EnterKey
| ConnectButton
| SearchField (text : string)
| StationButton (index : nat)
| ParameterSelect (code : string)
| StartDateField (date : string)
| EndDateField (date : string)
| RefreshButton
| DownloadButton.

(** What happens next on a page: a control is used, or the request at
    [index] of those under way ends. *)
Inductive Move :=
| Use (control : Control)
| StationsArrive (index : nat) (response : Response (list Station))
| ObservationsArrive (index : nat) (response : Response (list SeriesGroup)).

(** Whether a control is on the page and enabled (as [available]). *)
Definition enabled (c : Control) (st : State) : bool :=
  match c with
  | KeyField _ | EnterKey => showApiKeyInput st
  | ConnectButton =>
      showApiKeyInput st && negb ((apiKey st =? "")%string || loading st)
  | SearchField _ | StartDateField _ | EndDateField _ =>
      negb (showApiKeyInput st)
  | ParameterSelect code =>
      negb (showApiKeyInput st) && existsb (String.eqb code) parameterOptions
  | StationButton index =>
      negb (showApiKeyInput st) && is_some (nth_error (shownStations st) index)
  | RefreshButton =>
      negb (showApiKeyInput st) && is_some (selectedStation st)
      && negb (loading st)
  | DownloadButton => negb (showApiKeyInput st) && is_some (stationData st)
  end.

(** The control of an action. *)
Definition control_of (a : Action) : Control :=
  match a with
  | TypeKey text => KeyField text
  | PressEnter _ => EnterKey
  | ClickConnect _ => ConnectButton
  | TypeSearch text => SearchField text
  | ClickStation index _ => StationButton index
  | ChooseParameter code => ParameterSelect code
  | PickStartDate date => StartDateField date
  | PickEndDate date => EndDateField date
  | ClickRefresh _ => RefreshButton
  | ClickDownload => DownloadButton
  end.

(** The requests that leave with some events. *)
Definition sent (events : list Event) : list Request :=
  flat_map (fun e => match e with Fetch r => [r] | _ => [] end) events.

(** A list without its element at [index]. *)
Definition without (A : Type) (index : nat) (l : list A) : list A :=
  (firstn index l ++ skipn (S index) l)%list.

(** What a handler does up to its [await], if it has one. *)
Definition up_to_await (send : State -> option (State * Request)) : Handler :=
  fun st =>
    match send st with
    | Some (st', request) => (st', [Fetch request])
    | None => (st, [])
    end.

Definition is_stations_request (r : Request) : bool :=
  match r with GetStations _ => true | _ => false end.

Section LivePage.

Variable toLowerCase : string -> string.
Variable numberToString : number -> string.

(** What the use of a control runs before the page is live again. *)
Definition use (c : Control) : Handler :=
  fun st =>
    match c with
    | KeyField text => (setApiKey text st, [])
    | EnterKey | ConnectButton => up_to_await fetchStations_send st
    | SearchField text =>
        if (text =? searchTerm st)%string then (st, [])
        else (searchEffect toLowerCase (setSearchTerm text st), [])
    | StationButton index =>
        match nth_error (shownStations st) index with
        | Some station =>
            up_to_await (fetchStationData_send (stationId station))
                        (setSelectedStation (Some station) st)
        | None => (st, [])
        end
    | ParameterSelect code => (setParameter code st, [])
    | StartDateField date => (setStartDate date st, [])
    | EndDateField date => (setEndDate date st, [])
    | RefreshButton =>
        match selectedStation st with
        | Some station =>
            up_to_await (fetchStationData_send (stationId station)) st
        | None => (st, [])
        end
    | DownloadButton => downloadCSV numberToString st
    end.

(** The end of a catalog request, with the render it causes. *)
Definition stations_arrive (response : Response (list Station)) : Handler :=
  fun st =>
    let '(st', events) := fetchStations_resume response st in
    match response with
    | Json _ _ => (searchEffect toLowerCase st', events)
    | _ => (st', events)
    end.

(** One move; [None] when the control is not enabled or no request of that
    kind is under way at that index. *)
Definition move (m : Move) (p : Page) : option (Page * list Event) :=
  match m with
  | Use c =>
      if enabled c (session p) then
        let '(st, events) := use c (session p) in
        Some (mkPage st (under_way p ++ sent events), events)
      else None
  | StationsArrive index response =>
      match nth_error (under_way p) index with
      | Some (GetStations _) =>
          let '(st, events) := stations_arrive response (session p) in
          Some (mkPage st (without index (under_way p)), events)
      | _ => None
      end
  | ObservationsArrive index response =>
      match nth_error (under_way p) index with
      | Some (GetObservations _ _ _ _ _) =>
          let '(st, events) := fetchStationData_resume response (session p) in
          Some (mkPage st (without index (under_way p)), events)
      | _ => None
      end
  end.

(** A sequence of moves. *)
Fixpoint play (moves : list Move) (p : Page) : option (Page * list Event) :=
  match moves with
  | [] => Some (p, [])
  | m :: rest =>
      match move m p with
      | Some (p', events) =>
          match play rest p' with
          | Some (p'', events') => Some (p'', (events ++ events')%list)
          | None => None
          end
      | None => None
      end
  end.

(** The moves of an action whose request ends before anything else
    happens: the use of its control, then the end of the request if one
    left. *)
Definition moves_of (a : Action) (st : State) : list Move :=
  let requests := sent (snd (use (control_of a) st)) in
  Use (control_of a) ::
  match a, requests with
  | (PressEnter r | ClickConnect r), _ :: _ => [StationsArrive 0 r]
  | (ClickStation _ r | ClickRefresh r), _ :: _ => [ObservationsArrive 0 r]
  | _, _ => []
  end.

End LivePage.

(** What holds on every live page: the list under the search field is the
    catalog filtered by the term; a series, like a request for one, is there
    only with a selected station. *)
Definition live_invariant (toLowerCase : string -> string) (p : Page) : Prop :=
  filteredStations (session p)
  = filterStations toLowerCase (stations (session p)) (searchTerm (session p))
  /\ (stationData (session p) <> None -> selectedStation (session p) <> None)
  /\ (existsb (fun r => negb (is_stations_request r)) (under_way p) = true ->
      selectedStation (session p) <> None).

(** Past the key screen, with the key [k]; and no catalog request under way
    with the catalog [cat]. *)
Definition past_key_screen (k : string) (p : Page) : Prop :=
  showApiKeyInput (session p) = false /\ apiKey (session p) = k.

Definition catalog_settled (cat : list Station) (p : Page) : Prop :=
  existsb is_stations_request (under_way p) = false
  /\ stations (session p) = cat.

(** ** A visit with overlapping requests *)

(** Enter is pressed twice on the key screen; the first catalog request
    brings the catalog, the user clicks the first station, then the second
    catalog request ends with a 401 and a JSON body, then the observations
    arrive. *)
Definition overlap : list Move :=
  [ Use (KeyField "key");
    Use EnterKey;
    Use EnterKey;
    StationsArrive 0 (Json 200 (Some [glomma; gaula]));
    Use (StationButton 0);
    StationsArrive 0 (Json 401 None);
    ObservationsArrive 0
      (Json 200 (Some [mkSeriesGroup "1" "Elv A" "Discharge" "m3/s"
                                     (Some scenario2)])) ].

Definition overlap_end : Page :=
  mkPage (mkState "key" [] [] "" (Some glomma)
                  (Some (mkStationData "1" "Elv A" "Discharge" "m3/s" scenario2))
                  false "2024-01-01" "2024-01-08" "1001" false)
         [].

Definition overlap_events : list Event :=
  [ Fetch (GetStations "key");
    Fetch (GetStations "key");
    Fetch (GetObservations "key" (Some "1") "1001" "0" "2024-01-01/2024-01-08") ].

(** Two stations are clicked in a row; the first request brings its series,
    the second fails afterwards. *)
Definition two_clicks : list Move :=
  [ Use (StationButton 0);
    Use (StationButton 1);
    ObservationsArrive 0
      (Json 200 (Some [mkSeriesGroup "1" "Elv A" "Discharge" "m3/s"
                                     (Some scenario2)]));
    ObservationsArrive 0 (NetworkError "Failed to fetch") ].

(** ** Further words about the derived views *)

(** The series [fetchStationData] stores for a group. *)
Definition normalise (g : SeriesGroup) : StationData :=
  {| sd_stationId := g_stationId g;
     sd_stationName := g_stationName g;
     sd_parameter := g_parameterName g;
     sd_unit := g_unit g;
     observations := orEmpty (g_observations g) |}.

(** The number of line breaks in a string. *)
Fixpoint line_breaks (s : string) : nat :=
  match s with
  | EmptyString => 0
  | String c s' =>
      (if Ascii.eqb c newline_char then 1 else 0) + line_breaks s'
  end.

(** Whether a string holds no comma. *)
Fixpoint comma_free (s : string) : bool :=
  match s with
  | EmptyString => true
  | String c s' => negb (Ascii.eqb c ","%char) && comma_free s'
  end.

(** The fields of a series hold no line break. *)
Definition fields_line_free (numberToString : number -> string)
    (sd : StationData) : Prop :=
  line_free (sd_unit sd) = true
  /\ forall o, In o (observations sd) ->
       line_free (time o) = true
       /\ line_free (cell numberToString (value o)) = true.

(** A series with other observations. *)
Definition with_observations (l : list Observation) (sd : StationData)
  : StationData :=
  mkStationData (sd_stationId sd) (sd_stationName sd) (sd_parameter sd)
                (sd_unit sd) l.

(** An observation whose [null], NaN or zero value is written as 0. *)
Definition zero_filled (o : Observation) : Observation :=
  mkObservation (time o) (Some (orZero (value o))).

(** What stays of the session when only [stationData] and [loading] may
    change. *)
Definition outside_series (st : State) :=
  (apiKey st, stations st, filteredStations st, searchTerm st,
   selectedStation st, startDate st, endDate st, parameter st,
   showApiKeyInput st).

(** What stays when only the catalog cells, the key screen flag and
    [loading] may change. *)
Definition outside_catalog (st : State) :=
  (apiKey st, searchTerm st, selectedStation st, stationData st,
   startDate st, endDate st, parameter st).

(** A station none of whose fields is there. *)
Definition blank_station : Station := mkStation None None None.

(** The requests among the events. *)
Definition is_fetch (e : Event) : bool :=
  match e with Fetch _ => true | _ => false end.

(** The key a request carries. *)
Definition request_key (r : Request) : string :=
  match r with
  | GetStations k => k
  | GetObservations k _ _ _ _ => k
  end.

(** ** What holds on every page *)

(** The page is in order: no request is pending, the list under the search
    field is the catalog filtered by the term, a series is shown only for a
    selected station, the selected station is in the catalog, the parameter
    is one of the options, and behind the key screen nothing is loaded. *)
Definition page_invariant (toLowerCase : string -> string) (st : State) : Prop :=
  loading st = false
  /\ filteredStations st
     = filterStations toLowerCase (stations st) (searchTerm st)
  /\ (stationData st <> None -> selectedStation st <> None)
  /\ (forall s, selectedStation st = Some s -> In s (stations st))
  /\ In (parameter st) parameterOptions
  /\ (showApiKeyInput st = true ->
      stations st = [] /\ searchTerm st = "" /\ selectedStation st = None
      /\ stationData st = None).

(** A request as the code means to send it: with a key, and for
    observations with one of the six parameter codes, resolution 0 and a
    range made of two dates. *)
Definition well_formed_request (r : Request) : Prop :=
  match r with
  | GetStations k => k <> ""
  | GetObservations k _ code resolution range =>
      k <> "" /\ In code parameterOptions /\ resolution = "0"
      /\ exists start stop, start <> "" /\ stop <> ""
                            /\ range = start ++ "/" ++ stop
  end.

Definition well_formed_event (e : Event) : Prop :=
  match e with
  | Fetch r => well_formed_request r
  | _ => True
  end.

(** No request for the catalog. *)
Definition not_catalog_request (e : Event) : Prop :=
  match e with
  | Fetch (GetStations _) => False
  | _ => True
  end.

(** ** A visit *)

(** A visit without build-time key: type the key, connect, search, click
    the first station listed. *)
Definition visit : list Action :=
  [ TypeKey "key";
    ClickConnect (Json 200 (Some [glomma; gaula]));
    TypeSearch "glom";
    ClickStation 0
      (Json 200 (Some [mkSeriesGroup "1" "Elv A" "Discharge" "m3/s"
                                     (Some scenario2)])) ].

Definition visit_start : State := mount "" "2024-01-01" "2024-01-08".

Definition visit_end : State :=
  mkState "key" [glomma; gaula] [glomma] "glom" (Some glomma)
          (Some (mkStationData "1" "Elv A" "Discharge" "m3/s" scenario2))
          false "2024-01-01" "2024-01-08" "1001" false.

Definition visit_events : list Event :=
  [ Fetch (GetStations "key");
    Fetch (GetObservations "key" (Some "1") "1001" "0" "2024-01-01/2024-01-08") ].

(** The same page with a build-time key: there is no key screen. *)
Definition keyed_start : State := mount "key" "2024-01-01" "2024-01-08".

(** * The search filter *)

Lemma Subsequence_refl (A : Type) (l : list A) : Subsequence l l.
Proof. induction l; auto. Qed.

Lemma Subsequence_In (A : Type) (kept all : list A) :
  Subsequence kept all -> forall x, In x kept -> In x all.
Proof.
  induction 1 as [|y kept all _ IH|y kept all _ IH]; simpl; intros z Hz; auto.
  destruct Hz as [->|Hz]; auto.
Qed.

Lemma filter_Subsequence (A : Type) (keep : A -> bool) (l : list A) :
  Subsequence (filter keep l) l.
Proof.
  induction l as [|x l IH]; simpl; [constructor|].
  destruct (keep x); auto.
Qed.

Lemma filter_twice (A : Type) (keep : A -> bool) (l : list A) :
  filter keep (filter keep l) = filter keep l.
Proof.
  induction l as [|x l IH]; simpl; [reflexivity|].
  destruct (keep x) eqn:Hx; simpl; [rewrite Hx, IH|]; auto.
Qed.

(** [String.prefix] and [includes] say what they should. *)
Lemma prefix_append (t s : string) :
  String.prefix t s = true <-> exists post, s = t ++ post.
Proof.
  revert t; induction s as [|c s IH]; intros [|d t]; simpl.
  - split; [exists ""; reflexivity | reflexivity].
  - split; [discriminate | intros [post H]; discriminate].
  - split; [exists (String c s); reflexivity | reflexivity].
  - destruct (ascii_dec d c) as [->|Hne].
    + rewrite IH. split; intros [post H]; exists post.
      * now rewrite H.
      * now inversion H.
    + split; [discriminate | intros [post H]; inversion H; congruence].
Qed.

Lemma includes_occurs (s t : string) :
  includes s t = true <-> exists pre post, s = pre ++ t ++ post.
Proof.
  induction s as [|c s IH].
  - cbn [includes]. rewrite orb_false_r, prefix_append. split.
    + intros [post H]. exists "", post; exact H.
    + intros [[|d pre] [post H]]; [exists post; exact H | discriminate].
  - cbn [includes]. rewrite orb_true_iff, prefix_append, IH. split.
    + intros [[post H] | [pre [post H]]].
      * exists "", post; exact H.
      * exists (String c pre), post; simpl; now rewrite H.
    + intros [[|d pre] [post H]].
      * left; exists post; exact H.
      * right; exists pre, post; now inversion H.
Qed.

Section SearchFilterFacts.

Variable toLowerCase : string -> string.

(** With a non-empty term, the filter keeps exactly the stations the
    callback accepts. *)
Lemma filterStations_In (C : list Station) (T : string) (s : Station) :
  T <> "" ->
  (In s (filterStations toLowerCase C T) <->
   In s C /\ station_matches toLowerCase (toLowerCase T) s = true).
Proof.
  intros HT. destruct T as [|c T]; [congruence|].
  unfold filterStations. apply filter_In.
Qed.

(** What the callback accepts: the lowered name or the lowered river name
    contains the lowered term, or the identifier as it is contains the
    lowered term; a missing field never matches. *)
Lemma station_matches_fields (term : string) (s : Station) :
  station_matches toLowerCase term s = true <->
  (exists n, stationName s = Some n /\ includes (toLowerCase n) term = true) \/
  (exists r, riverName s = Some r /\ includes (toLowerCase r) term = true) \/
  (exists i, stationId s = Some i /\ includes i term = true).
Proof.
  unfold station_matches, lowered_includes, raw_includes.
  rewrite !orb_true_iff.
  destruct (stationName s) as [n|], (riverName s) as [r|], (stationId s) as [i|];
    split; intros H;
    repeat match goal with
           | H : _ \/ _ |- _ => destruct H
           | H : exists _, _ |- _ => destruct H as [? [? ?]]
           | H : Some _ = Some _ |- _ => inversion H; subst; clear H
           end;
    try discriminate; eauto 6.
Qed.

End SearchFilterFacts.

(** Scenario 1 of the specification. *)
Example filterStations_scenario1 :
  filterStations ascii_toLowerCase
    [ mkStation (Some "1") (Some "Elv A") (Some "Glomma");
      mkStation (Some "2") (Some "Elv B") (Some "Gaula") ] "glom"
  = [ mkStation (Some "1") (Some "Elv A") (Some "Glomma") ].
Proof. reflexivity. Qed.

(** A station without river name is matched on its other fields. *)
Example filterStations_missing_river :
  filterStations ascii_toLowerCase
    [ mkStation (Some "1") (Some "Elv A") None;
      mkStation None None None ] "ELV"
  = [ mkStation (Some "1") (Some "Elv A") None ].
Proof. reflexivity. Qed.

(** C1: the identifier is compared as it is with the lowered term, so a
    station whose identifier holds an upper-case letter is not found by its
    own identifier, although the identifier contains the term when both are
    lowered. *)
Theorem filterStations_identifier_not_lowered (toLowerCase : string -> string) :
  toLowerCase "A1" = "a1" ->
  toLowerCase "Elv" = "elv" ->
  filterStations toLowerCase [mkStation (Some "A1") (Some "Elv") None] "A1" = []
  /\ includes (toLowerCase "A1") (toLowerCase "A1") = true.
Proof.
  intros Hid Hname. unfold filterStations, station_matches; simpl.
  rewrite Hid, Hname. split; reflexivity.
Qed.

Lemma filterStations_identifier_not_lowered_witness :
  filterStations ascii_toLowerCase [mkStation (Some "A1") (Some "Elv") None] "A1" = []
  /\ includes (ascii_toLowerCase "A1") (ascii_toLowerCase "A1") = true.
Proof.
  apply (filterStations_identifier_not_lowered ascii_toLowerCase); reflexivity.
Defined.

(** C8: with the empty term the filter returns the catalog as it is, and with
    any term its result is a sub-sequence of the catalog, in catalog order. *)
Theorem filterStations_identity_and_subsequence
    (toLowerCase : string -> string) (C : list Station) (T : string) :
  filterStations toLowerCase C "" = C
  /\ Subsequence (filterStations toLowerCase C T) C.
Proof.
  split; [reflexivity|].
  destruct T as [|c T]; simpl.
  - apply Subsequence_refl.
  - apply filter_Subsequence.
Qed.

(** C9: filtering the filtered result by the same term changes nothing. *)
Theorem filterStations_idempotent
    (toLowerCase : string -> string) (C : list Station) (T : string) :
  filterStations toLowerCase (filterStations toLowerCase C T) T
  = filterStations toLowerCase C T.
Proof.
  destruct T as [|c T]; simpl; [reflexivity|].
  apply filter_twice.
Qed.

(** The effect writes the filtered catalog and nothing else. *)
Lemma searchEffect_filteredStations (toLowerCase : string -> string) (st : State) :
  filteredStations (searchEffect toLowerCase st)
  = filterStations toLowerCase (stations st) (searchTerm st)
  /\ stations (searchEffect toLowerCase st) = stations st
  /\ searchTerm (searchEffect toLowerCase st) = searchTerm st.
Proof. repeat split. Qed.

(** * The fetchers, when nothing happens during the request *)

Lemma fetchStations_atomic (response : Response (list Station)) (st : State) :
  fetchStations response st
  = if (apiKey st =? "")%string then (st, [])
    else
      let request := Fetch (GetStations (apiKey st)) in
      let st := setLoading true st in
      match response with
      | Json _ data =>
          let st := setStations (orEmpty data) st in
          let st := setFilteredStations (orEmpty data) st in
          let st := setShowApiKeyInput false st in
          (setLoading false st, [request])
      | NetworkError m | NotJson _ m | JsonNull _ m =>
          (setLoading false st,
           [request; Alert ("Error fetching stations: " ++ m)])
      end.
Proof.
  unfold fetchStations, fetchStations_send, fetchStations_resume.
  destruct (apiKey st =? "")%string; [reflexivity|].
  destruct response; reflexivity.
Qed.

Lemma fetchStationData_atomic (stationId : option string)
    (response : Response (list SeriesGroup)) (st : State) :
  fetchStationData stationId response st
  = if (apiKey st =? "")%string || (startDate st =? "")%string
       || (endDate st =? "")%string
    then (st, [])
    else
      let request :=
        Fetch (GetObservations (apiKey st) stationId (parameter st) "0"
                               (startDate st ++ "/" ++ endDate st)) in
      let st := setLoading true st in
      let st := setStationData None st in
      match response with
      | Json _ (Some (data :: _)) =>
          let st := setStationData
                      (Some {| sd_stationId := g_stationId data;
                               sd_stationName := g_stationName data;
                               sd_parameter := g_parameterName data;
                               sd_unit := g_unit data;
                               observations := orEmpty (g_observations data) |})
                      st in
          (setLoading false st, [request])
      | Json _ _ => (setLoading false st, [request])
      | NetworkError m | NotJson _ m | JsonNull _ m =>
          (setLoading false st,
           [request; Alert ("Error fetching station data: " ++ m)])
      end.
Proof.
  unfold fetchStationData, fetchStationData_send, fetchStationData_resume.
  destruct ((apiKey st =? "")%string || (startDate st =? "")%string
            || (endDate st =? "")%string); [reflexivity|].
  destruct response as [m|c m|c m|c [[|g gs]|]]; reflexivity.
Qed.

(** * The catalog fetcher *)

(** With no key nothing happens. *)
Lemma fetchStations_no_key (r : Response (list Station)) (st : State) :
  apiKey st = "" -> fetchStations r st = (st, []).
Proof. intros H. rewrite fetchStations_atomic. now rewrite H. Qed.

(** C2, as stated, fails: a response with status 401 whose body is JSON is
    not a failure for the code; no message is shown, the catalog is replaced
    (here by the empty one) and the key screen is left. *)
Lemma fetchStations_status_unread :
  http_ok 401 = false
  /\ fetchStations (Json 401 None) connected
     = (mkState "key" [] [] "" None None false
                "2024-01-01" "2024-01-08" "1001" false,
        [Fetch (GetStations "key")])
  /\ stations (fst (fetchStations (Json 401 None) connected)) <> stations connected.
Proof. repeat split. discriminate. Qed.

(** C2, amended: when the request throws (network error, body not JSON) the
    message is shown after the fixed prefix and the catalog keeps its value;
    when the body parses, whatever the status, the catalog becomes the
    [data] array (empty when missing) and the key screen is left. *)
Theorem fetchStations_outcome (r : Response (list Station)) (st : State) :
  apiKey st <> "" ->
  match r with
  | Json _ data =>
      snd (fetchStations r st) = [Fetch (GetStations (apiKey st))]
      /\ stations (fst (fetchStations r st)) = orEmpty data
      /\ showApiKeyInput (fst (fetchStations r st)) = false
  | NetworkError m | NotJson _ m | JsonNull _ m =>
      snd (fetchStations r st)
      = [Fetch (GetStations (apiKey st)); Alert ("Error fetching stations: " ++ m)]
      /\ stations (fst (fetchStations r st)) = stations st
      /\ showApiKeyInput (fst (fetchStations r st)) = showApiKeyInput st
  end.
Proof.
  intros Hkey. rewrite !fetchStations_atomic.
  destruct (String.eqb_spec (apiKey st) "") as [E|_]; [contradiction|].
  destruct r; simpl; repeat split.
Qed.

Lemma fetchStations_outcome_witness :
  snd (fetchStations (NetworkError "Failed to fetch") first_visit)
  = [Fetch (GetStations "key"); Alert "Error fetching stations: Failed to fetch"]
  /\ stations (fst (fetchStations (NetworkError "Failed to fetch") first_visit)) = []
  /\ showApiKeyInput (fst (fetchStations (NetworkError "Failed to fetch") first_visit)) = true.
Proof.
  apply (fetchStations_outcome (NetworkError "Failed to fetch") first_visit).
  discriminate.
Defined.

(** Scenario 4, the successful call. *)
Example fetchStations_scenario4 :
  fetchStations (Json 200 (Some [glomma; gaula])) first_visit
  = (mkState "key" [glomma; gaula] [glomma; gaula] "" None None false "" ""
             "1001" false,
     [Fetch (GetStations "key")]).
Proof. reflexivity. Qed.

(** * The observation fetcher *)

(** C4, as stated, fails: an empty station identifier stops nothing; the
    request is sent and the previous series is dropped. *)
Lemma fetchStationData_empty_identifier :
  fetchStationData (Some "") (Json 200 None) (viewing (series "m3/s" scenario2))
  = (mkState "key" [glomma; gaula] [glomma; gaula] "" (Some glomma) None false
             "2024-01-01" "2024-01-08" "1001" false,
     [Fetch (GetObservations "key" (Some "") "1001" "0" "2024-01-01/2024-01-08")])
  /\ fetchStationData (Some "") (Json 200 None) (viewing (series "m3/s" scenario2))
     <> (viewing (series "m3/s" scenario2), []).
Proof. split; [reflexivity | discriminate]. Qed.

(** C4, amended: the handler does nothing (no request, no state change)
    exactly when the key, the start date or the end date is empty, whatever
    the station identifier. *)
Theorem fetchStationData_noop_iff (stationId : option string)
    (r : Response (list SeriesGroup)) (st : State) :
  fetchStationData stationId r st = (st, [])
  <-> (apiKey st = "" \/ startDate st = "" \/ endDate st = "").
Proof.
  rewrite !fetchStationData_atomic.
  destruct (String.eqb_spec (apiKey st) "") as [K|K];
    destruct (String.eqb_spec (startDate st) "") as [S|S];
    destruct (String.eqb_spec (endDate st) "") as [E|E]; simpl;
    try (split; [intros _; tauto | reflexivity]).
  split; [|tauto].
  destruct r as [m|c m|c m|c [[|g gs]|]]; intros H; inversion H.
Qed.

Lemma fetchStationData_noop_iff_witness :
  fetchStationData (Some "1") (Json 200 None) first_visit = (first_visit, []).
Proof.
  apply (fetchStationData_noop_iff (Some "1") (Json 200 None) first_visit).
  right; left; reflexivity.
Defined.

(** * The CSV export *)

Lemma line_free_append (a b : string) :
  line_free (a ++ b) = line_free a && line_free b.
Proof.
  induction a as [|c a IH]; simpl; [reflexivity|].
  now rewrite IH, andb_assoc.
Qed.

Lemma split_lines_not_nil (s : string) : split_lines s <> [].
Proof.
  induction s as [|c s IH]; simpl; [discriminate|].
  destruct (Ascii.eqb c newline_char); [discriminate|].
  destruct (split_lines s); discriminate.
Qed.

(** A line followed by a line break and more text splits off as it is. *)
Lemma split_lines_first (line rest : string) :
  line_free line = true ->
  split_lines (line ++ newline ++ rest) = line :: split_lines rest.
Proof.
  induction line as [|c line IH]; simpl; intros H.
  - reflexivity.
  - apply andb_true_iff in H as [Hc Hl].
    apply negb_true_iff in Hc. rewrite Hc.
    simpl in IH. now rewrite (IH Hl).
Qed.

Lemma split_lines_single (line : string) :
  line_free line = true -> split_lines line = [line].
Proof.
  induction line as [|c line IH]; simpl; intros H; [reflexivity|].
  apply andb_true_iff in H as [Hc Hl].
  apply negb_true_iff in Hc. now rewrite Hc, (IH Hl).
Qed.

(** Splitting undoes joining, when no line holds a line break. *)
Lemma split_lines_concat (first : string) (others : list string) :
  Forall (fun l => line_free l = true) (first :: others) ->
  split_lines (String.concat newline (first :: others)) = first :: others.
Proof.
  revert first; induction others as [|second others IH]; intros first H.
  - simpl. apply split_lines_single. now inversion H.
  - change (String.concat newline (first :: second :: others))
      with (first ++ newline ++ String.concat newline (second :: others)).
    inversion H; subst.
    rewrite split_lines_first by assumption.
    now rewrite IH.
Qed.

Section ExportFacts.

Variable numberToString : number -> string.

Lemma csv_rows (sd : StationData) :
  csv numberToString sd
  = String.concat newline
      (header_row sd :: map (data_row numberToString) (observations sd)).
Proof. reflexivity. Qed.

Lemma header_row_line_free (sd : StationData) :
  line_free (header_row sd) = line_free (sd_unit sd).
Proof.
  unfold header_row. rewrite !line_free_append. simpl. now rewrite andb_true_r.
Qed.

Lemma data_row_line_free (o : Observation) :
  line_free (data_row numberToString o)
  = line_free (time o) && line_free (cell numberToString (value o)).
Proof. unfold data_row. now rewrite !line_free_append. Qed.

(** C5, amended: the text is the header row [Time,Value (u)] and one row
    [time,value] per observation, joined by line breaks, a [null] value
    giving an empty field; when neither the unit nor any timestamp or
    rendered value holds a line break, splitting at line breaks gives back
    these n+1 rows, the header first. *)
Theorem csv_split_lines (sd : StationData) :
  line_free (sd_unit sd) = true ->
  (forall o, In o (observations sd) ->
     line_free (time o) = true
     /\ line_free (cell numberToString (value o)) = true) ->
  csv numberToString sd
  = String.concat newline
      (header_row sd :: map (data_row numberToString) (observations sd))
  /\ split_lines (csv numberToString sd)
     = header_row sd :: map (data_row numberToString) (observations sd)
  /\ List.length (split_lines (csv numberToString sd))
     = S (List.length (observations sd))
  /\ hd_error (split_lines (csv numberToString sd))
     = Some ("Time,Value (" ++ sd_unit sd ++ ")")
  /\ (forall t, data_row numberToString (mkObservation t None) = t ++ ",").
Proof.
  intros Hunit Hobs.
  assert (Hsplit : split_lines (csv numberToString sd)
                   = header_row sd :: map (data_row numberToString) (observations sd)).
  { rewrite csv_rows. apply split_lines_concat. constructor.
    - now rewrite header_row_line_free.
    - apply Forall_forall. intros row Hrow.
      apply in_map_iff in Hrow as [o [<- Ho]].
      rewrite data_row_line_free.
      destruct (Hobs o Ho) as [-> ->]. reflexivity. }
  split; [apply csv_rows|]. split; [exact Hsplit|].
  rewrite Hsplit. simpl. rewrite length_map. repeat split.
Qed.

End ExportFacts.

(** Scenario 5 of the specification. *)
Example csv_scenario5 :
  csv integerToString (series "m3/s" scenario2)
  = "Time,Value (m3/s)" ++ newline
    ++ "2024-01-01T00:00:00Z,10" ++ newline
    ++ "2024-01-01T01:00:00Z," ++ newline
    ++ "2024-01-01T02:00:00Z,20".
Proof. vm_compute. reflexivity. Qed.

Lemma csv_split_lines_witness :
  split_lines (csv integerToString (series "m3/s" scenario2))
  = [ "Time,Value (m3/s)"; "2024-01-01T00:00:00Z,10"; "2024-01-01T01:00:00Z,";
      "2024-01-01T02:00:00Z,20" ].
Proof.
  apply (csv_split_lines integerToString (series "m3/s" scenario2)).
  - reflexivity.
  - intros o [<-|[<-|[<-|[]]]]; split; vm_compute; reflexivity.
Defined.

(** C5, as stated, fails on a unit that holds a line break: nothing is
    escaped, the header spreads over two lines and the line count is off. *)
Lemma csv_unit_with_line_break :
  List.length (split_lines (csv integerToString line_break_series))
  <> S (List.length (observations line_break_series))
  /\ hd_error (split_lines (csv integerToString line_break_series))
     <> Some ("Time,Value (" ++ sd_unit line_break_series ++ ")")
  /\ split_lines (csv integerToString line_break_series)
     = ["Time,Value (m3"; "s)"; "2024-01-01T00:00:00Z,"].
Proof. repeat split; vm_compute; discriminate. Qed.

Section DownloadFacts.

Variable numberToString : number -> string.

(** C10: the export does nothing (no file, state as it was) when there is
    no series or the series has no observation; with at least one
    observation it offers exactly one file and leaves the state as it was. *)
Theorem downloadCSV_guard (st : State) :
  (stationData st = None -> downloadCSV numberToString st = (st, []))
  /\ (forall sd, stationData st = Some sd -> observations sd = [] ->
        downloadCSV numberToString st = (st, []))
  /\ (forall sd, stationData st = Some sd -> observations sd <> [] ->
        downloadCSV numberToString st
        = (st, [Download (sd_stationId sd ++ "_" ++ startDate st ++ "_"
                            ++ endDate st ++ ".csv")
                         "text/csv" (csv numberToString sd)])).
Proof.
  unfold downloadCSV. repeat split.
  - intros ->. reflexivity.
  - intros sd -> ->. reflexivity.
  - intros sd -> Hobs. destruct (observations sd); [contradiction|reflexivity].
Qed.

End DownloadFacts.

Lemma downloadCSV_guard_witness :
  downloadCSV integerToString connected = (connected, [])
  /\ downloadCSV integerToString (viewing (series "m3/s" [])) = (viewing (series "m3/s" []), [])
  /\ downloadCSV integerToString (viewing (series "m3/s" scenario2))
     = (viewing (series "m3/s" scenario2),
        [Download "2.13.0_2024-01-01_2024-01-08.csv" "text/csv"
                  (csv integerToString (series "m3/s" scenario2))]).
Proof.
  split; [|split].
  - apply (downloadCSV_guard integerToString connected). reflexivity.
  - apply (downloadCSV_guard integerToString (viewing (series "m3/s" []))) with
      (sd := series "m3/s" []); reflexivity.
  - apply (downloadCSV_guard integerToString (viewing (series "m3/s" scenario2))) with
      (sd := series "m3/s" scenario2); [reflexivity | discriminate].
Defined.

(** * Numbers: order *)

Lemma compare_cont_Eq (p q : positive) :
  Pos.compare_cont Eq p q = (Zpos p ?= Zpos q)%Z.
Proof. reflexivity. Qed.

(** Off NaN, [<=] and [<] are the lexicographic order on keys. *)
Lemma leb_key (x y : number) :
  isNaN x = false -> isNaN y = false ->
  (leb x y = true <-> lex_le (key x) (key y)).
Proof.
  unfold leb, SFleb, SFcompare, lex_le.
  destruct x as [[]|[]| |[] mx ex], y as [[]|[]| |[] my ey]; simpl;
    intros Hx Hy; try discriminate;
    try (split; [intros _; lia | reflexivity]);
    try (split; [discriminate | lia]);
    rewrite compare_cont_Eq;
    destruct (Z.compare_spec ex ey); try destruct (Z.compare_spec (Zpos mx) (Zpos my));
      simpl; split; intros; try discriminate; try reflexivity; lia.
Qed.

Lemma ltb_key (x y : number) :
  isNaN x = false -> isNaN y = false ->
  (ltb x y = true <-> lex_lt (key x) (key y)).
Proof.
  unfold ltb, SFltb, SFcompare, lex_lt.
  destruct x as [[]|[]| |[] mx ex], y as [[]|[]| |[] my ey]; simpl;
    intros Hx Hy; try discriminate;
    try (split; [intros _; lia | reflexivity]);
    try (split; [discriminate | lia]);
    rewrite compare_cont_Eq;
    destruct (Z.compare_spec ex ey); try destruct (Z.compare_spec (Zpos mx) (Zpos my));
      simpl; split; intros; try discriminate; try reflexivity; lia.
Qed.

Lemma leb_refl (x : number) : isNaN x = false -> leb x x = true.
Proof.
  intros Hx. apply leb_key; trivial.
  unfold lex_le. destruct (key x) as [[a b] c]. lia.
Qed.

Lemma leb_trans (x y z : number) :
  isNaN x = false -> isNaN y = false -> isNaN z = false ->
  leb x y = true -> leb y z = true -> leb x z = true.
Proof.
  intros Hx Hy Hz Hxy Hyz.
  apply leb_key in Hxy; trivial. apply leb_key in Hyz; trivial.
  apply leb_key; trivial.
  unfold lex_le in *.
  destruct (key x) as [[a1 a2] a3], (key y) as [[b1 b2] b3], (key z) as [[c1 c2] c3].
  lia.
Qed.

Lemma ltb_leb (x y : number) :
  isNaN x = false -> isNaN y = false -> ltb x y = true -> leb x y = true.
Proof.
  intros Hx Hy H. apply ltb_key in H; trivial. apply leb_key; trivial.
  unfold lex_lt, lex_le in *.
  destruct (key x) as [[a1 a2] a3], (key y) as [[b1 b2] b3]. lia.
Qed.

Lemma not_ltb_leb (x y : number) :
  isNaN x = false -> isNaN y = false -> ltb x y = false -> leb y x = true.
Proof.
  intros Hx Hy H. apply leb_key; trivial.
  assert (N : ~ lex_lt (key x) (key y)).
  { intros L. apply ltb_key in L; trivial. congruence. }
  unfold lex_lt, lex_le in *.
  destruct (key x) as [[a1 a2] a3], (key y) as [[b1 b2] b3]. lia.
Qed.

Lemma same_number_key (x y : number) : same_number x y -> key x = key y.
Proof. destruct 1; reflexivity. Qed.

Lemma same_number_isNaN (x y : number) : same_number x y -> isNaN x = isNaN y.
Proof. destruct 1; reflexivity. Qed.

Lemma same_number_sym (x y : number) : same_number x y -> same_number y x.
Proof. destruct 1; constructor. Qed.

Lemma leb_same_r (m x y : number) :
  isNaN m = false -> isNaN x = false ->
  same_number x y -> leb m x = true -> leb m y = true.
Proof.
  intros Hm Hx S L.
  assert (Hy : isNaN y = false) by now rewrite <- (same_number_isNaN S).
  apply leb_key in L; trivial. apply leb_key; trivial.
  now rewrite <- (same_number_key S).
Qed.

Lemma leb_same_l (m x y : number) :
  isNaN m = false -> isNaN x = false ->
  same_number x y -> leb x m = true -> leb y m = true.
Proof.
  intros Hm Hx S L.
  assert (Hy : isNaN y = false) by now rewrite <- (same_number_isNaN S).
  apply leb_key in L; trivial. apply leb_key; trivial.
  now rewrite <- (same_number_key S).
Qed.

(** * Numbers: [Math.min] and [Math.max] *)

(** One step keeps one of the two numbers, the lower one. *)
Lemma min_step_lower (lo x : number) :
  isNaN lo = false -> isNaN x = false ->
  exists lo', min_step (Some lo) x = Some lo'
    /\ (lo' = x \/ lo' = lo)
    /\ leb lo' lo = true /\ leb lo' x = true.
Proof.
  intros Hlo Hx.
  assert (G : exists lo', (if ltb x lo then Some x else Some lo) = Some lo'
                /\ (lo' = x \/ lo' = lo)
                /\ leb lo' lo = true /\ leb lo' x = true).
  { destruct (ltb x lo) eqn:L.
    - exists x. repeat split; auto using ltb_leb, leb_refl.
    - exists lo. repeat split; auto using not_ltb_leb, leb_refl. }
  destruct x as [[]|sx| |sx mx ex]; try discriminate;
    destruct lo as [[]|slo| |slo mlo elo]; try discriminate; try exact G.
  exists (S754_zero true). repeat split; auto.
Qed.

Lemma max_step_higher (hi x : number) :
  isNaN hi = false -> isNaN x = false ->
  exists hi', max_step (Some hi) x = Some hi'
    /\ (hi' = x \/ hi' = hi)
    /\ leb hi hi' = true /\ leb x hi' = true.
Proof.
  intros Hhi Hx.
  assert (G : exists hi', (if ltb hi x then Some x else Some hi) = Some hi'
                /\ (hi' = x \/ hi' = hi)
                /\ leb hi hi' = true /\ leb x hi' = true).
  { destruct (ltb hi x) eqn:L.
    - exists x. repeat split; auto using ltb_leb, leb_refl.
    - exists hi. repeat split; auto using not_ltb_leb, leb_refl. }
  destruct x as [[]|sx| |sx mx ex]; try discriminate;
    destruct hi as [[]|shi| |shi mhi ehi]; try discriminate; try exact G.
  exists (S754_zero false). repeat split; auto.
Qed.

(** The loop of [Math.min], from any starting value. *)
Lemma min_fold_lower (l : list number) : forall lo,
  isNaN lo = false -> NaN_free l ->
  exists r, fold_left min_step l (Some lo) = Some r
    /\ isNaN r = false
    /\ In r (lo :: l)
    /\ leb r lo = true
    /\ forall x, In x l -> leb r x = true.
Proof.
  induction l as [|x l IH]; intros lo Hlo Hl.
  - exists lo. simpl. repeat split; auto using leb_refl; try now intros ? [].
  - inversion Hl as [|? ? Hx Hl']; subst.
    destruct (@min_step_lower lo x Hlo Hx) as [lo' [E [Hin [L1 L2]]]].
    assert (Hlo' : isNaN lo' = false) by (destruct Hin; subst; assumption).
    destruct (IH lo' Hlo' Hl') as [r [Er [Hr [Rin [R1 R2]]]]].
    exists r. cbn [fold_left]. rewrite E. repeat split; trivial.
    + destruct Rin as [<-|Rin]; [|now right; right].
      destruct Hin; subst; [right; left | left]; reflexivity.
    + exact (@leb_trans r lo' lo Hr Hlo' Hlo R1 L1).
    + intros y [<-|Hy]; [exact (@leb_trans r lo' x Hr Hlo' Hx R1 L2) | auto].
Qed.

Lemma max_fold_higher (l : list number) : forall hi,
  isNaN hi = false -> NaN_free l ->
  exists r, fold_left max_step l (Some hi) = Some r
    /\ isNaN r = false
    /\ In r (hi :: l)
    /\ leb hi r = true
    /\ forall x, In x l -> leb x r = true.
Proof.
  induction l as [|x l IH]; intros hi Hhi Hl.
  - exists hi. simpl. repeat split; auto using leb_refl; try now intros ? [].
  - inversion Hl as [|? ? Hx Hl']; subst.
    destruct (@max_step_higher hi x Hhi Hx) as [hi' [E [Hin [L1 L2]]]].
    assert (Hhi' : isNaN hi' = false) by (destruct Hin; subst; assumption).
    destruct (IH hi' Hhi' Hl') as [r [Er [Hr [Rin [R1 R2]]]]].
    exists r. cbn [fold_left]. rewrite E. repeat split; trivial.
    + destruct Rin as [<-|Rin]; [|now right; right].
      destruct Hin; subst; [right; left | left]; reflexivity.
    + exact (@leb_trans hi hi' r Hhi Hhi' Hr L1 R1).
    + intros y [<-|Hy]; [exact (@leb_trans x hi' r Hx Hhi' Hr L2 R1) | auto].
Qed.

Lemma leb_Infinity (x : number) : leb Infinity x = true -> x = Infinity.
Proof. destruct x as [s|[]| |s m e]; try discriminate; reflexivity. Qed.

Lemma leb_negInfinity (x : number) : leb x negInfinity = true -> x = negInfinity.
Proof. destruct x as [s|[]| |[] m e]; try discriminate; reflexivity. Qed.

(** [Math.min] of a non-empty list without NaN is one of its numbers and is
    below all of them. *)
Lemma lowest_least (l : list number) :
  NaN_free l -> l <> [] ->
  isNaN (lowest l) = false
  /\ In (lowest l) l
  /\ forall x, In x l -> leb (lowest l) x = true.
Proof.
  intros Hl Hne. unfold lowest.
  destruct (@min_fold_lower l Infinity eq_refl Hl) as [r [-> [Hr [Rin [_ Rlow]]]]].
  repeat split; trivial.
  destruct Rin as [<-|Rin]; [|exact Rin].
  destruct l as [|x l]; [contradiction|].
  rewrite <- (@leb_Infinity x (Rlow x (or_introl eq_refl))). now left.
Qed.

Lemma highest_greatest (l : list number) :
  NaN_free l -> l <> [] ->
  isNaN (highest l) = false
  /\ In (highest l) l
  /\ forall x, In x l -> leb x (highest l) = true.
Proof.
  intros Hl Hne. unfold highest.
  destruct (@max_fold_higher l negInfinity eq_refl Hl) as [r [-> [Hr [Rin [_ Rup]]]]].
  repeat split; trivial.
  destruct Rin as [<-|Rin]; [|exact Rin].
  destruct l as [|x l]; [contradiction|].
  rewrite <- (@leb_negInfinity x (Rup x (or_introl eq_refl))). now left.
Qed.

(** * Numbers: sums up to the sign of zero *)

Lemma add_same (x x' y y' : number) :
  same_number x x' -> same_number y y' -> same_number (add x y) (add x' y').
Proof.
  intros [a|s s'] [b|t t']; try constructor.
  - destruct a as [[]|[]| |[] m e], t, t'; constructor.
  - destruct b as [[]|[]| |[] m e], s, s'; constructor.
  - destruct s, s', t, t'; constructor.
Qed.

Lemma div_same (x x' y : number) :
  same_number x x' -> same_number (div x y) (div x' y).
Proof.
  intros [a|s s']; [constructor|].
  destruct y as [[]|[]| |[] m e], s, s'; constructor.
Qed.

(** * The statistics *)

Lemma orZero_not_NaN (v : option number) : isNaN (orZero v) = false.
Proof. destruct v as [[s|s| |s m e]|]; reflexivity. Qed.

(** [v || 0] is [v] with [null] replaced by 0, the sign of a zero apart,
    for every [v] other than NaN. *)
Lemma orZero_nullAsZero (v : option number) :
  v <> Some NaN -> same_number (orZero v) (nullAsZero v).
Proof.
  destruct v as [[s|s| |s m e]|]; intros H; try constructor.
  now contradiction H.
Qed.

Lemma orZero_values_NaN_free (l : list Observation) :
  NaN_free (map (fun o => orZero (value o)) l).
Proof.
  apply Forall_forall. intros x Hx.
  apply in_map_iff in Hx as [o [<- _]]. apply orZero_not_NaN.
Qed.

(** The [reduce] of [stats] and the sum of the null-as-zero values agree. *)
Lemma reduce_total (l : list Observation) : forall acc acc',
  (forall o, In o l -> value o <> Some NaN) ->
  same_number acc acc' ->
  same_number
    (fold_left (fun sum o => add sum (orZero (value o))) l acc)
    (fold_left add (map (fun o => nullAsZero (value o)) l) acc').
Proof.
  induction l as [|o l IH]; intros acc acc' Hl Hacc; simpl; [exact Hacc|].
  apply IH.
  - intros o' Ho'. apply Hl. now right.
  - apply add_same; [exact Hacc|]. apply orZero_nullAsZero. apply Hl. now left.
Qed.

(** Within the argument limit the statistics are the [summary]; beyond it
    the render throws. *)
Lemma stats_within (argumentLimit : N) (sd : StationData) :
  (N.of_nat (List.length (observations sd)) <= argumentLimit)%N ->
  stats argumentLimit (Some sd) = Normal (Some (summary sd)).
Proof.
  intros H. unfold stats, Math_min, Math_max. rewrite length_map.
  apply N.leb_le in H. now rewrite H.
Qed.

Lemma stats_beyond (argumentLimit : N) (sd : StationData) :
  (argumentLimit < N.of_nat (List.length (observations sd)))%N ->
  stats argumentLimit (Some sd) = RangeError.
Proof.
  intros H. unfold stats, Math_min, Math_max. rewrite length_map.
  apply N.leb_gt in H. now rewrite H.
Qed.

(** Scenario 2 of the specification. *)
Example stats_scenario2 :
  stats engine_limit (Some (series "m3/s" scenario2))
  = Normal (Some {| count := ofZ 3; min := ofZ 0; max := ofZ 20; avg := ofZ 10 |}).
Proof. rewrite stats_within; [vm_compute; reflexivity | now vm_compute]. Qed.

(** What the statistics of a series within the argument limit are: for a
    series with at least one observation whose values are JSON numbers or
    [null], [count] is the number of observations, [min] and [max] are the
    minimum and the maximum of the values with [null] replaced by 0, and
    [avg] is the sum of these values divided by [count]. *)
Lemma summary_nonempty (sd : StationData) :
  observations sd <> [] ->
  (forall o, In o (observations sd) -> value o <> Some NaN) ->
  count (summary sd) = ofNat (List.length (observations sd))
  /\ least (min (summary sd))
           (map (fun o => nullAsZero (value o)) (observations sd))
  /\ greatest (max (summary sd))
              (map (fun o => nullAsZero (value o)) (observations sd))
  /\ same_number (avg (summary sd))
       (div (total (map (fun o => nullAsZero (value o)) (observations sd)))
            (ofNat (List.length (observations sd)))).
Proof.
  intros Hne Hjson. unfold summary. cbn [count min max avg].
  set (lowered := map (fun o => orZero (value o)) (observations sd)).
  assert (Hfree : NaN_free lowered) by apply orZero_values_NaN_free.
  assert (Hne' : lowered <> []).
  { unfold lowered. destruct (observations sd); [contradiction | discriminate]. }
  destruct (@lowest_least lowered Hfree Hne') as [Hmin [Imin Lmin]].
  destruct (@highest_greatest lowered Hfree Hne') as [Hmax [Imax Lmax]].
  split; [reflexivity|]. split; [|split].
  - split.
    + apply in_map_iff in Imin as [o [Eo Ho]].
      exists (nullAsZero (value o)). split.
      * apply in_map_iff. now exists o.
      * rewrite <- Eo. apply orZero_nullAsZero. now apply Hjson.
    + intros x Hx. apply in_map_iff in Hx as [o [<- Ho]].
      apply (@leb_same_r _ (orZero (value o))); auto using orZero_not_NaN.
      * apply orZero_nullAsZero. now apply Hjson.
      * apply Lmin. apply in_map_iff. now exists o.
  - split.
    + apply in_map_iff in Imax as [o [Eo Ho]].
      exists (nullAsZero (value o)). split.
      * apply in_map_iff. now exists o.
      * rewrite <- Eo. apply orZero_nullAsZero. now apply Hjson.
    + intros x Hx. apply in_map_iff in Hx as [o [<- Ho]].
      apply (@leb_same_l _ (orZero (value o))); auto using orZero_not_NaN.
      * apply orZero_nullAsZero. now apply Hjson.
      * apply Lmax. apply in_map_iff. now exists o.
  - apply div_same. unfold total. apply reduce_total; [exact Hjson | constructor].
Qed.

(** C3: the statistics of a long series are never computed, where the
    claim promises them for every non-empty series.  [min] and [max] are
    computed by [Math.min(...values)] and [Math.max(...values)], one
    argument per observation, where [avg] on the next line folds with
    [reduce]: on a series with more observations than the engine accepts
    arguments the render throws a [RangeError] and there are no statistics
    at all. *)
Theorem stats_long_series_throws (argumentLimit : N) (sd : StationData) :
  (argumentLimit < N.of_nat (List.length (observations sd)))%N ->
  stats argumentLimit (Some sd) = RangeError
  /\ ~ (exists st, stats argumentLimit (Some sd) = Normal (Some st)).
Proof.
  intros H. rewrite (@stats_beyond argumentLimit sd H). split; [reflexivity|].
  intros [st E]. discriminate.
Qed.

Lemma stats_long_series_throws_witness :
  stats engine_limit (Some (long_series (engine_limit + 1))) = RangeError
  /\ ~ (exists st, stats engine_limit (Some (long_series (engine_limit + 1)))
                   = Normal (Some st)).
Proof.
  apply (@stats_long_series_throws engine_limit (long_series (engine_limit + 1))).
  unfold long_series, series. cbn [observations].
  rewrite repeat_length, N2Nat.id. lia.
Defined.

(** C6, as stated, fails: on a series without observations only [avg] is
    NaN; [count] is 0, [min] is +Infinity and [max] is -Infinity, whatever
    the engine's argument limit. *)
Lemma stats_empty_not_all_NaN :
  stats engine_limit (Some (series "m3/s" []))
  = Normal (Some {| count := zero; min := Infinity; max := negInfinity;
                    avg := NaN |})
  /\ ~ (exists argumentLimit st,
          stats argumentLimit (Some (series "m3/s" [])) = Normal (Some st)
          /\ isNaN (count st) = true /\ isNaN (min st) = true
          /\ isNaN (max st) = true /\ isNaN (avg st) = true).
Proof.
  split; [reflexivity|].
  intros [limit [st [E [Hc _]]]].
  rewrite stats_within in E by apply N.le_0_l.
  inversion E; subst. discriminate.
Qed.

(** C6, amended: on a present series without observations [count] is 0,
    [min] is +Infinity, [max] is -Infinity and [avg] is NaN, and there is no
    chart point. *)
Theorem stats_empty (argumentLimit : N)
    (toLocaleDateString : string -> string) (sd : StationData) :
  observations sd = [] ->
  stats argumentLimit (Some sd)
  = Normal (Some {| count := zero; min := Infinity; max := negInfinity;
                    avg := NaN |})
  /\ chartData toLocaleDateString (Some sd) = [].
Proof.
  intros H. rewrite stats_within by (rewrite H; apply N.le_0_l).
  unfold summary, chartData. rewrite H. split; reflexivity.
Qed.

Lemma stats_empty_witness :
  stats engine_limit (Some (series "m3/s" []))
  = Normal (Some {| count := zero; min := Infinity; max := negInfinity;
                    avg := NaN |})
  /\ chartData (fun t => t) (Some (series "m3/s" [])) = [].
Proof.
  apply (stats_empty engine_limit (fun t => t) (series "m3/s" [])). reflexivity.
Defined.

(** C7, as stated, fails: three readings of 0.1 sum to 0.30000000000000004,
    whose third rounds to 0.10000000000000002, above the maximum 0.1. *)
Lemma stats_avg_above_max :
  stats engine_limit (Some (series "m3/s" three_tenths))
  = Normal (Some {| count := ofZ 3; min := tenth; max := tenth;
                    avg := ofBinary 7205759403792795 (-56) |})
  /\ ~ (forall st,
          stats engine_limit (Some (series "m3/s" three_tenths))
          = Normal (Some st) ->
          leb (min st) (avg st) = true /\ leb (avg st) (max st) = true).
Proof.
  assert (E : stats engine_limit (Some (series "m3/s" three_tenths))
              = Normal (Some {| count := ofZ 3; min := tenth; max := tenth;
                                avg := ofBinary 7205759403792795 (-56) |})).
  { rewrite stats_within; [vm_compute; reflexivity | now vm_compute]. }
  split; [exact E|].
  intros H. destruct (H _ E) as [_ Habove].
  vm_compute in Habove. discriminate.
Qed.

(** C7, amended: the statistics are absent exactly when the series is; for a
    series with at least one observation and no more observations than the
    engine accepts arguments, [min <= max], and every value, with [null] (or
    a zero) read as 0, lies between them. *)
Theorem stats_absent_iff_and_bounds (argumentLimit : N) :
  (forall stationData,
     stats argumentLimit stationData = Normal None <-> stationData = None)
  /\ forall sd,
       observations sd <> [] ->
       (N.of_nat (List.length (observations sd)) <= argumentLimit)%N ->
       exists st,
         stats argumentLimit (Some sd) = Normal (Some st)
         /\ leb (min st) (max st) = true
         /\ forall o, In o (observations sd) ->
              leb (min st) (orZero (value o)) = true
              /\ leb (orZero (value o)) (max st) = true.
Proof.
  split.
  - intros [sd|]; split; intros H.
    + unfold stats in H.
      destruct (Math_min argumentLimit _); [|discriminate].
      destruct (Math_max argumentLimit _); discriminate.
    + discriminate.
    + reflexivity.
    + reflexivity.
  - intros sd Hne Hlen. exists (summary sd). split; [now apply stats_within|].
    unfold summary. cbn [min max].
    set (lowered := map (fun o => orZero (value o)) (observations sd)).
    assert (Hfree : NaN_free lowered) by apply orZero_values_NaN_free.
    assert (Hne' : lowered <> []).
    { unfold lowered. destruct (observations sd); [contradiction | discriminate]. }
    destruct (@lowest_least lowered Hfree Hne') as [Hmin [Imin Lmin]].
    destruct (@highest_greatest lowered Hfree Hne') as [Hmax [Imax Lmax]].
    assert (Hbetween : forall o, In o (observations sd) ->
              leb (lowest lowered) (orZero (value o)) = true
              /\ leb (orZero (value o)) (highest lowered) = true).
    { intros o Ho. split; [apply Lmin | apply Lmax]; apply in_map_iff; now exists o. }
    split; [|exact Hbetween].
    destruct (observations sd) as [|o l] eqn:Eobs; [contradiction|].
    destruct (Hbetween o (or_introl eq_refl)) as [L1 L2].
    exact (@leb_trans _ (orZero (value o)) _ Hmin (orZero_not_NaN _) Hmax L1 L2).
Qed.

Lemma stats_absent_iff_and_bounds_witness :
  exists st,
    stats engine_limit (Some (series "m3/s" three_tenths)) = Normal (Some st)
    /\ leb (min st) (max st) = true
    /\ forall o, In o three_tenths ->
         leb (min st) (orZero (value o)) = true
         /\ leb (orZero (value o)) (max st) = true.
Proof.
  apply (proj2 (stats_absent_iff_and_bounds engine_limit)
               (series "m3/s" three_tenths)).
  - discriminate.
  - now vm_compute.
Defined.

(** * More on the search filter *)

Lemma string_append_assoc (a b c : string) : (a ++ b) ++ c = a ++ b ++ c.
Proof. induction a as [|x a IH]; simpl; [reflexivity | now rewrite IH]. Qed.

Lemma includes_trans (s t' t : string) :
  includes s t' = true -> includes t' t = true -> includes s t = true.
Proof.
  rewrite !includes_occurs.
  intros [pre [post ->]] [pre' [post' ->]].
  exists (pre ++ pre'), (post' ++ post).
  now rewrite !string_append_assoc.
Qed.

Lemma Subsequence_trans (A : Type) (l2 l3 : list A) :
  Subsequence l2 l3 -> forall l1, Subsequence l1 l2 -> Subsequence l1 l3.
Proof.
  induction 1 as [|x l2 l3 _ IH|x l2 l3 _ IH]; intros l1 H12; auto.
  inversion H12; subst; auto.
Qed.

Lemma filter_narrower (A : Type) (p q : A -> bool) (l : list A) :
  (forall x, In x l -> p x = true -> q x = true) ->
  Subsequence (filter p l) (filter q l).
Proof.
  induction l as [|x l IH]; intros H; simpl; [constructor|].
  assert (IH' : Subsequence (filter p l) (filter q l)).
  { apply IH. intros y Hy. apply H. now right. }
  destruct (p x) eqn:Hp.
  - rewrite (H x (or_introl eq_refl) Hp). now constructor.
  - destruct (q x); auto.
Qed.

Lemma firstn_Subsequence (A : Type) (n : nat) (l : list A) :
  Subsequence (firstn n l) l.
Proof.
  revert n; induction l as [|x l IH]; intros [|n]; simpl; auto.
  constructor. apply (IH 0).
Qed.

Section SearchFilterMore.

Variable toLowerCase : string -> string.

Lemma filterStations_Subsequence (C : list Station) (T : string) :
  Subsequence (filterStations toLowerCase C T) C.
Proof.
  destruct T; cbn [filterStations];
    [apply Subsequence_refl | apply filter_Subsequence].
Qed.

(** X1: with a non-empty term the filter keeps exactly the catalog's
    stations whose lowered name or lowered river name has the lowered term
    inside, or whose identifier, as it is, has the lowered term inside. *)
Theorem filterStations_keeps_exactly (C : list Station) (T : string) (s : Station) :
  T <> "" ->
  (In s (filterStations toLowerCase C T) <->
   In s C /\
   ((exists n pre post,
       stationName s = Some n /\ toLowerCase n = pre ++ toLowerCase T ++ post)
    \/ (exists r pre post,
       riverName s = Some r /\ toLowerCase r = pre ++ toLowerCase T ++ post)
    \/ (exists i pre post,
       stationId s = Some i /\ i = pre ++ toLowerCase T ++ post))).
Proof.
  intros HT. rewrite (filterStations_In toLowerCase C s HT).
  rewrite station_matches_fields.
  split; intros [HC H]; (split; [exact HC|]).
  - destruct H as [[n [E H]]|[[r [E H]]|[i [E H]]]];
      apply includes_occurs in H as [pre [post H]]; eauto 8.
  - destruct H as [[n [pre [post [E H]]]]|[[r [pre [post [E H]]]]|[i [pre [post [E H]]]]]].
    + left. exists n. split; [exact E|]. apply includes_occurs; eauto.
    + right; left. exists r. split; [exact E|]. apply includes_occurs; eauto.
    + right; right. exists i. split; [exact E|]. apply includes_occurs; eauto.
Qed.

Lemma station_matches_narrower (t t' : string) (s : Station) :
  includes t' t = true ->
  station_matches toLowerCase t' s = true ->
  station_matches toLowerCase t s = true.
Proof.
  intros Hin. unfold station_matches, lowered_includes, raw_includes.
  rewrite !orb_true_iff.
  destruct (stationName s), (riverName s), (stationId s);
    intros [[H|H]|H]; try discriminate; eauto using includes_trans.
Qed.

(** X2: a longer search never finds more.  When the lowered old term lies
    inside the lowered new term, the new result is a sub-sequence of the old
    one. *)
Theorem filterStations_narrowing (C : list Station) (T T' : string) :
  T' <> "" ->
  includes (toLowerCase T') (toLowerCase T) = true ->
  Subsequence (filterStations toLowerCase C T') (filterStations toLowerCase C T).
Proof.
  intros HT' Hin. destruct T' as [|c' T']; [congruence|].
  destruct T as [|c T].
  - cbn [filterStations]. apply filter_Subsequence.
  - cbn [filterStations]. apply filter_narrower.
    intros s _. now apply station_matches_narrower.
Qed.

(** X3: a station with no name, no river name and no identifier is dropped
    by every non-empty term, and the empty term keeps it. *)
Theorem filterStations_blank_station (C : list Station) (T : string) (s : Station) :
  stationId s = None -> stationName s = None -> riverName s = None ->
  (T <> "" -> ~ In s (filterStations toLowerCase C T))
  /\ (In s C -> In s (filterStations toLowerCase C "")).
Proof.
  intros Hi Hn Hr. split; [|intros H; exact H].
  intros HT H. apply filterStations_In in H as [_ H]; [|exact HT].
  unfold station_matches in H. rewrite Hi, Hn, Hr in H. discriminate.
Qed.

(** Filtering a catalog made of two parts is filtering each part, and the
    result is never longer than the catalog. *)
Lemma filterStations_append (C1 C2 : list Station) (T : string) :
  filterStations toLowerCase (C1 ++ C2) T
  = (filterStations toLowerCase C1 T ++ filterStations toLowerCase C2 T)%list
  /\ List.length (filterStations toLowerCase (C1 ++ C2) T)
     <= List.length C1 + List.length C2.
Proof.
  destruct T as [|c T]; cbn [filterStations].
  - split; [reflexivity | now rewrite length_app].
  - split; [apply filter_app|].
    rewrite <- length_app. apply filter_length_le.
Qed.

(** X4: after the search effect the page lists at most 50 stations, the
    first ones of the filtered catalog, in catalog order, and all of them
    when there are no more than 50. *)
Theorem shownStations_first_fifty (st : State) :
  let st' := searchEffect toLowerCase st in
  List.length (shownStations st') <= 50
  /\ (shownStations st' ++ skipn 50 (filteredStations st'))%list
     = filterStations toLowerCase (stations st) (searchTerm st)
  /\ Subsequence (shownStations st') (stations st)
  /\ (List.length (filteredStations st') <= 50 ->
      shownStations st' = filteredStations st').
Proof.
  cbn zeta. unfold shownStations.
  destruct (searchEffect_filteredStations toLowerCase st) as [-> _].
  set (filtered := filterStations toLowerCase (stations st) (searchTerm st)).
  split; [apply firstn_le_length|].
  split; [apply firstn_skipn|].
  split.
  - apply Subsequence_trans with (l2 := filtered).
    + apply filterStations_Subsequence.
    + apply firstn_Subsequence.
  - intros H. now apply firstn_all2.
Qed.

End SearchFilterMore.

Lemma filterStations_keeps_exactly_witness :
  In glomma (filterStations ascii_toLowerCase [glomma; gaula] "GLOM").
Proof.
  apply (filterStations_keeps_exactly ascii_toLowerCase [glomma; gaula]
           (T := "GLOM") glomma).
  - discriminate.
  - split; [now left|].
    right; left. exists "Glomma", "", "ma". split; reflexivity.
Defined.

Lemma filterStations_narrowing_witness :
  Subsequence (filterStations ascii_toLowerCase [glomma; gaula] "Glom")
              (filterStations ascii_toLowerCase [glomma; gaula] "G").
Proof.
  apply (filterStations_narrowing ascii_toLowerCase [glomma; gaula] "G" (T' := "Glom")).
  - discriminate.
  - reflexivity.
Defined.

Lemma filterStations_blank_station_witness :
  ~ In blank_station (filterStations ascii_toLowerCase [glomma; blank_station] "a")
  /\ In blank_station (filterStations ascii_toLowerCase [glomma; blank_station] "").
Proof.
  destruct (filterStations_blank_station ascii_toLowerCase [glomma; blank_station] "a"
              blank_station eq_refl eq_refl eq_refl) as [Hdrop Hkeep].
  split; [apply Hdrop; discriminate | apply Hkeep; right; now left].
Defined.

(** * More on the two fetchers *)

(** X5: [fetchStations] does nothing, no request and no state change,
    exactly when the key is empty. *)
Theorem fetchStations_noop_iff (r : Response (list Station)) (st : State) :
  fetchStations r st = (st, []) <-> apiKey st = "".
Proof.
  rewrite !fetchStations_atomic.
  destruct (String.eqb_spec (apiKey st) "") as [K|K].
  - split; auto.
  - split; [|contradiction]. destruct r; intros H; inversion H.
Qed.

Lemma fetchStations_noop_iff_witness :
  fetchStations (Json 200 (Some [glomma])) (mount "" "2024-01-01" "2024-01-08")
  = (mount "" "2024-01-01" "2024-01-08", []).
Proof.
  apply (fetchStations_noop_iff (Json 200 (Some [glomma]))
           (mount "" "2024-01-01" "2024-01-08")).
  reflexivity.
Defined.

(** X6: with a key, [fetchStations] sends exactly one request, which carries
    the key, ends with [loading] cleared whatever the outcome, and leaves
    the key, the search term, the selection, the series, the dates and the
    parameter as they were. *)
Theorem fetchStations_frame (r : Response (list Station)) (st : State) :
  apiKey st <> "" ->
  filter is_fetch (snd (fetchStations r st)) = [Fetch (GetStations (apiKey st))]
  /\ loading (fst (fetchStations r st)) = false
  /\ outside_catalog (fst (fetchStations r st)) = outside_catalog st.
Proof.
  intros K. rewrite !fetchStations_atomic.
  destruct (String.eqb_spec (apiKey st) "") as [E|_]; [contradiction|].
  destruct r; repeat split.
Qed.

Lemma fetchStations_frame_witness :
  filter is_fetch (snd (fetchStations (NotJson 502 "Unexpected token <") connected))
  = [Fetch (GetStations "key")]
  /\ loading (fst (fetchStations (NotJson 502 "Unexpected token <") connected)) = false
  /\ outside_catalog (fst (fetchStations (NotJson 502 "Unexpected token <") connected))
     = outside_catalog connected.
Proof.
  apply (fetchStations_frame (NotJson 502 "Unexpected token <") connected).
  discriminate.
Defined.

(** Neither fetcher reads the HTTP status: two responses that differ only
    in their status have the same effect. *)
Lemma fetchers_ignore_status (s s' : Z) (st : State) :
  (forall d, fetchStations (Json s d) st = fetchStations (Json s' d) st)
  /\ (forall m, fetchStations (NotJson s m) st = fetchStations (NotJson s' m) st)
  /\ (forall id d, fetchStationData id (Json s d) st
                   = fetchStationData id (Json s' d) st)
  /\ (forall id m, fetchStationData id (NotJson s m) st
                   = fetchStationData id (NotJson s' m) st).
Proof. repeat split. Qed.

(** X7: when the key and both dates are there, [fetchStationData] sends
    exactly one request, with the key, the identifier it was given, the
    chosen parameter, resolution 0 and the range [start/end]; it ends with
    [loading] cleared and touches no cell but [stationData] and [loading]. *)
Theorem fetchStationData_request (id : option string)
    (r : Response (list SeriesGroup)) (st : State) :
  apiKey st <> "" -> startDate st <> "" -> endDate st <> "" ->
  filter is_fetch (snd (fetchStationData id r st))
  = [Fetch (GetObservations (apiKey st) id (parameter st) "0"
                            (startDate st ++ "/" ++ endDate st))]
  /\ loading (fst (fetchStationData id r st)) = false
  /\ outside_series (fst (fetchStationData id r st)) = outside_series st.
Proof.
  intros K S E. rewrite !fetchStationData_atomic.
  destruct (String.eqb_spec (apiKey st) ""); [contradiction|].
  destruct (String.eqb_spec (startDate st) ""); [contradiction|].
  destruct (String.eqb_spec (endDate st) ""); [contradiction|].
  destruct r as [m|c m|c m|c [[|g gs]|]]; repeat split.
Qed.

Lemma fetchStationData_request_witness :
  filter is_fetch (snd (fetchStationData (Some "2.13.0") (Json 200 None) connected))
  = [Fetch (GetObservations "key" (Some "2.13.0") "1001" "0" "2024-01-01/2024-01-08")]
  /\ loading (fst (fetchStationData (Some "2.13.0") (Json 200 None) connected)) = false
  /\ outside_series (fst (fetchStationData (Some "2.13.0") (Json 200 None) connected))
     = outside_series connected.
Proof.
  apply (fetchStationData_request (Some "2.13.0") (Json 200 None) connected);
    discriminate.
Defined.

(** X8: the two halves of [fetchStationData].  When the request leaves, the
    series on the page is dropped and [loading] is set.  When the request
    ends, whatever has happened on the page since, a parsed body with a
    group puts its first group on the page, while a body without group and
    a request that throws write no series (what is then on the page stays)
    and the latter shows the message; [loading] is cleared in every case.
    So when nothing else arrives in between, no old series is on the page
    afterwards. *)
Theorem fetchStationData_phases (id : option string) (st : State) :
  apiKey st <> "" -> startDate st <> "" -> endDate st <> "" ->
  (exists st1 request,
     fetchStationData_send id st = Some (st1, request)
     /\ stationData st1 = None /\ loading st1 = true)
  /\ (forall (r : Response (list SeriesGroup)) (later : State),
        loading (fst (fetchStationData_resume r later)) = false
        /\ outside_series (fst (fetchStationData_resume r later))
           = outside_series later
        /\ match r with
           | Json _ (Some (g :: _)) =>
               stationData (fst (fetchStationData_resume r later))
               = Some (normalise g)
               /\ snd (fetchStationData_resume r later) = []
           | Json _ _ =>
               stationData (fst (fetchStationData_resume r later))
               = stationData later
               /\ snd (fetchStationData_resume r later) = []
           | NetworkError m | NotJson _ m | JsonNull _ m =>
               stationData (fst (fetchStationData_resume r later))
               = stationData later
               /\ snd (fetchStationData_resume r later)
                  = [Alert ("Error fetching station data: " ++ m)]
           end)
  /\ (forall (r : Response (list SeriesGroup)),
        stationData (fst (fetchStationData id r st))
        = match r with
          | Json _ (Some (g :: _)) => Some (normalise g)
          | _ => None
          end).
Proof.
  intros K S E.
  apply String.eqb_neq in K. apply String.eqb_neq in S. apply String.eqb_neq in E.
  split; [|split].
  - unfold fetchStationData_send. rewrite K, S, E. cbn [orb].
    do 2 eexists. split; [reflexivity|]. split; reflexivity.
  - intros r later. unfold fetchStationData_resume.
    destruct r as [m|c m|c m|c [[|g gs]|]]; repeat split.
  - intros r. rewrite fetchStationData_atomic, K, S, E. cbn [orb].
    destruct r as [m|c m|c m|c [[|g gs]|]]; reflexivity.
Qed.

Lemma fetchStationData_phases_witness :
  exists st1 request,
    fetchStationData_send (Some "1") (viewing (series "m3/s" scenario2))
    = Some (st1, request)
    /\ stationData st1 = None /\ loading st1 = true.
Proof.
  apply (@fetchStationData_phases (Some "1") (viewing (series "m3/s" scenario2)));
    discriminate.
Defined.

(** Of the groups in a body only the first is used; the others change
    nothing. *)
Lemma fetchStationData_first_group (id : option string) (status : Z)
    (g : SeriesGroup) (others : list SeriesGroup) (st : State) :
  fetchStationData id (Json status (Some (g :: others))) st
  = fetchStationData id (Json status (Some [g])) st.
Proof. reflexivity. Qed.

(** * More on the CSV export *)

Lemma split_lines_length (s : string) :
  List.length (split_lines s) = S (line_breaks s).
Proof.
  induction s as [|c s IH]; simpl; [reflexivity|].
  destruct (Ascii.eqb c newline_char); simpl; [now rewrite IH|].
  destruct (split_lines s) as [|line rest] eqn:E.
  - now destruct (split_lines_not_nil s).
  - exact IH.
Qed.

(** Joining the lines of a text with line breaks gives the text back. *)
Lemma concat_split_lines (s : string) : String.concat newline (split_lines s) = s.
Proof.
  induction s as [|c s IH]; [reflexivity|]. cbn [split_lines].
  destruct (Ascii.eqb_spec c newline_char) as [->|Hc].
  - destruct (split_lines s) as [|line rest] eqn:E.
    + now destruct (split_lines_not_nil s).
    + change (String.concat newline (EmptyString :: line :: rest))
        with (newline ++ String.concat newline (line :: rest)).
      now rewrite IH.
  - destruct (split_lines s) as [|line rest] eqn:E.
    + now destruct (split_lines_not_nil s).
    + destruct rest as [|next rest]; cbn [String.concat] in *.
      * now rewrite IH.
      * cbn [append]. now rewrite IH.
Qed.

Lemma line_breaks_append (a b : string) :
  line_breaks (a ++ b) = line_breaks a + line_breaks b.
Proof.
  induction a as [|c a IH]; simpl; [reflexivity|]. rewrite IH. lia.
Qed.

Lemma line_breaks_concat (first : string) (others : list string) :
  line_breaks (String.concat newline (first :: others))
  = List.length others + list_sum (map line_breaks (first :: others)).
Proof.
  revert first; induction others as [|second others IH]; intros first.
  - simpl. lia.
  - change (String.concat newline (first :: second :: others))
      with (first ++ newline ++ String.concat newline (second :: others)).
    rewrite !line_breaks_append, IH. simpl. lia.
Qed.

Lemma string_length_append (a b : string) :
  String.length (a ++ b) = String.length a + String.length b.
Proof. induction a as [|c a IH]; simpl; [reflexivity | now rewrite IH]. Qed.

Lemma string_append_cancel_r (a b c : string) : a ++ c = b ++ c -> a = b.
Proof.
  revert b; induction a as [|x a IH]; intros [|y b] H; simpl in H.
  - reflexivity.
  - apply (f_equal String.length) in H. simpl in H.
    rewrite string_length_append in H. lia.
  - apply (f_equal String.length) in H. simpl in H.
    rewrite string_length_append in H. lia.
  - inversion H; subst. f_equal. now apply IH.
Qed.

(** A comma-free timestamp is read back from its row. *)
Lemma comma_row_inj (t1 t2 c1 c2 : string) :
  comma_free t1 = true -> comma_free t2 = true ->
  t1 ++ "," ++ c1 = t2 ++ "," ++ c2 -> t1 = t2 /\ c1 = c2.
Proof.
  revert t2; induction t1 as [|x t1 IH]; intros [|y t2] F1 F2 H; simpl in *.
  - inversion H. auto.
  - inversion H; subst. discriminate.
  - inversion H; subst. discriminate.
  - apply andb_true_iff in F1 as [_ F1]. apply andb_true_iff in F2 as [_ F2].
    inversion H; subst.
    destruct (IH t2 F1 F2 H2) as [-> ->]. auto.
Qed.

Section ExportMore.

Variable numberToString : number -> string.

Lemma split_lines_csv (sd : StationData) :
  fields_line_free numberToString sd ->
  split_lines (csv numberToString sd)
  = header_row sd :: map (data_row numberToString) (observations sd).
Proof.
  intros [Hunit Hobs]. rewrite csv_rows. apply split_lines_concat. constructor.
  - now rewrite header_row_line_free.
  - apply Forall_forall. intros row Hrow.
    apply in_map_iff in Hrow as [o [<- Ho]].
    rewrite data_row_line_free. destruct (Hobs o Ho) as [-> ->]. reflexivity.
Qed.

(** X9: whatever the fields hold, the text splits into one line for the
    header, one per observation, and one more for every line break inside
    the unit, a timestamp or a rendered value. *)
Theorem csv_line_count (sd : StationData) :
  List.length (split_lines (csv numberToString sd))
  = S (List.length (observations sd))
    + line_breaks (sd_unit sd)
    + list_sum (map (fun o => line_breaks (time o)
                              + line_breaks (cell numberToString (value o)))
                    (observations sd)).
Proof.
  assert (Hrows : list_sum (map line_breaks
                              (map (data_row numberToString) (observations sd)))
                  = list_sum (map (fun o => line_breaks (time o)
                                            + line_breaks (cell numberToString (value o)))
                                  (observations sd))).
  { rewrite map_map. f_equal. apply map_ext. intros o.
    unfold data_row. rewrite !line_breaks_append. simpl. lia. }
  rewrite split_lines_length, csv_rows, line_breaks_concat.
  rewrite length_map. cbn [map]. unfold list_sum in *. cbn [fold_right].
  rewrite Hrows.
  unfold header_row. rewrite !line_breaks_append. simpl. lia.
Qed.

Lemma data_rows_inj (l1 l2 : list Observation) :
  (forall o, In o l1 -> comma_free (time o) = true) ->
  (forall o, In o l2 -> comma_free (time o) = true) ->
  map (data_row numberToString) l1 = map (data_row numberToString) l2 ->
  map (fun o => (time o, cell numberToString (value o))) l1
  = map (fun o => (time o, cell numberToString (value o))) l2.
Proof.
  revert l2; induction l1 as [|o1 l1 IH]; intros [|o2 l2] F1 F2 H;
    simpl in H; try discriminate; [reflexivity|].
  inversion H as [[Hrow Hrest]].
  destruct (@comma_row_inj (time o1) (time o2) _ _
              (F1 o1 (or_introl eq_refl)) (F2 o2 (or_introl eq_refl)) Hrow)
    as [Ht Hc].
  simpl. rewrite Ht, Hc. f_equal.
  apply IH; auto; intros o Ho; [apply F1 | apply F2]; now right.
Qed.

(** X10: the text gives back what went in.  For series whose fields hold no
    line break and whose timestamps hold no comma, equal texts come from
    equal units and equal sequences of timestamps and rendered values. *)
Theorem csv_injective (sd1 sd2 : StationData) :
  fields_line_free numberToString sd1 -> fields_line_free numberToString sd2 ->
  (forall o, In o (observations sd1) -> comma_free (time o) = true) ->
  (forall o, In o (observations sd2) -> comma_free (time o) = true) ->
  csv numberToString sd1 = csv numberToString sd2 ->
  sd_unit sd1 = sd_unit sd2
  /\ map (fun o => (time o, cell numberToString (value o))) (observations sd1)
     = map (fun o => (time o, cell numberToString (value o))) (observations sd2).
Proof.
  intros L1 L2 F1 F2 H.
  apply (f_equal split_lines) in H.
  rewrite (split_lines_csv L1), (split_lines_csv L2) in H.
  inversion H as [[Hhead Hrows]]. split.
  - apply string_append_cancel_r with (c := ")"). exact Hhead.
  - now apply data_rows_inj.
Qed.

(** X11: the file is named after the station the API reported and after the
    dates in the pickers at the time of the click, not after the range that
    was fetched: a date picked between the fetch and the click changes the
    name and not the content. *)
Theorem downloadCSV_name_follows_pickers (id : option string) (status : Z)
    (g : SeriesGroup) (others : list SeriesGroup) (picked : string) (st : State)
    (o : Observation) (l : list Observation) :
  apiKey st <> "" -> startDate st <> "" -> endDate st <> "" ->
  g_observations g = Some (o :: l) ->
  let fetched := fetchStationData id (Json status (Some (g :: others))) st in
  snd fetched
  = [Fetch (GetObservations (apiKey st) id (parameter st) "0"
                            (startDate st ++ "/" ++ endDate st))]
  /\ snd (downloadCSV numberToString (setStartDate picked (fst fetched)))
     = [Download (g_stationId g ++ "_" ++ picked ++ "_" ++ endDate st ++ ".csv")
                 "text/csv" (csv numberToString (normalise g))].
Proof.
  intros K S E Hobs. cbn zeta. rewrite !fetchStationData_atomic.
  destruct (String.eqb_spec (apiKey st) ""); [contradiction|].
  destruct (String.eqb_spec (startDate st) ""); [contradiction|].
  destruct (String.eqb_spec (endDate st) ""); [contradiction|].
  split; [reflexivity|].
  unfold downloadCSV, normalise. simpl. rewrite Hobs. reflexivity.
Qed.

End ExportMore.

Lemma csv_injective_witness :
  sd_unit (series "m3/s" scenario2) = sd_unit (series "m3/s" scenario2)
  /\ map (fun o => (time o, cell integerToString (value o))) scenario2
     = map (fun o => (time o, cell integerToString (value o))) scenario2.
Proof.
  assert (L : fields_line_free integerToString (series "m3/s" scenario2)).
  { split; [reflexivity|].
    intros o [<-|[<-|[<-|[]]]]; split; vm_compute; reflexivity. }
  assert (F : forall o, In o (observations (series "m3/s" scenario2)) ->
                        comma_free (time o) = true).
  { intros o [<-|[<-|[<-|[]]]]; reflexivity. }
  exact (@csv_injective integerToString (series "m3/s" scenario2)
           (series "m3/s" scenario2) L L F F eq_refl).
Defined.

Lemma downloadCSV_name_follows_pickers_witness :
  snd (fetchStationData (Some "2.13.0")
         (Json 200 (Some [mkSeriesGroup "2.13.0" "Elv A" "Discharge" "m3/s"
                                        (Some scenario2)]))
         connected)
  = [Fetch (GetObservations "key" (Some "2.13.0") "1001" "0" "2024-01-01/2024-01-08")]
  /\ snd (downloadCSV integerToString
            (setStartDate "2023-06-01"
               (fst (fetchStationData (Some "2.13.0")
                       (Json 200 (Some [mkSeriesGroup "2.13.0" "Elv A" "Discharge"
                                                      "m3/s" (Some scenario2)]))
                       connected))))
     = [Download "2.13.0_2023-06-01_2024-01-08.csv" "text/csv"
                 (csv integerToString (series "m3/s" scenario2))].
Proof.
  apply (@downloadCSV_name_follows_pickers integerToString (Some "2.13.0") 200
           (mkSeriesGroup "2.13.0" "Elv A" "Discharge" "m3/s" (Some scenario2))
           [] "2023-06-01" connected
           (mkObservation "2024-01-01T00:00:00Z" (Some (ofZ 10)))
           [ mkObservation "2024-01-01T01:00:00Z" None;
             mkObservation "2024-01-01T02:00:00Z" (Some (ofZ 20)) ]);
    try discriminate; reflexivity.
Defined.

(** * More on the statistics and the chart *)

Lemma orZero_idempotent (v : option number) : orZero (Some (orZero v)) = orZero v.
Proof. destruct v as [[s|s| |s m e]|]; reflexivity. Qed.

Lemma reduce_zero_filled (l : list Observation) : forall acc,
  fold_left (fun sum o => add sum (orZero (value o))) (map zero_filled l) acc
  = fold_left (fun sum o => add sum (orZero (value o))) l acc.
Proof.
  induction l as [|o l IH]; intros acc; [reflexivity|].
  cbn [map fold_left]. rewrite IH.
  unfold zero_filled at 1. cbn [value]. now rewrite orZero_idempotent.
Qed.

(** X12: the statistics cannot tell a missing reading from a reading of 0:
    writing 0 for every [null] (and for every zero or NaN) value leaves
    [count], [min], [max] and [avg] as they are. *)
Theorem stats_zero_filled (argumentLimit : N) (sd : StationData) :
  stats argumentLimit
        (Some (with_observations (map zero_filled (observations sd)) sd))
  = stats argumentLimit (Some sd).
Proof.
  unfold stats, Math_min, Math_max, with_observations, length_of.
  cbn [observations].
  rewrite !length_map, reduce_zero_filled, map_map.
  assert (E : map (fun o => orZero (value (zero_filled o))) (observations sd)
              = map (fun o => orZero (value o)) (observations sd)).
  { apply map_ext. intros o. apply orZero_idempotent. }
  now rewrite E.
Qed.

(** X13: for a series with no more observations than the engine accepts
    arguments, whatever the readings, [min] and [max] are numbers, never
    NaN; with no reading they are +Infinity and -Infinity. *)
Theorem stats_min_max_not_NaN (argumentLimit : N) (sd : StationData) :
  (N.of_nat (List.length (observations sd)) <= argumentLimit)%N ->
  exists st,
    stats argumentLimit (Some sd) = Normal (Some st)
    /\ isNaN (min st) = false /\ isNaN (max st) = false.
Proof.
  intros Hlen. exists (summary sd). split; [now apply stats_within|].
  unfold summary. cbn [min max].
  set (lowered := map (fun o => orZero (value o)) (observations sd)).
  assert (Hfree : NaN_free lowered) by apply orZero_values_NaN_free.
  destruct lowered as [|x l] eqn:E; [split; reflexivity|].
  assert (Hne : x :: l <> []) by discriminate.
  destruct (@lowest_least (x :: l) Hfree Hne) as [Hmin _].
  destruct (@highest_greatest (x :: l) Hfree Hne) as [Hmax _].
  now split.
Qed.

Lemma stats_min_max_not_NaN_witness :
  exists st,
    stats engine_limit (Some (series "m3/s" scenario2)) = Normal (Some st)
    /\ isNaN (min st) = false /\ isNaN (max st) = false.
Proof.
  apply (@stats_min_max_not_NaN engine_limit (series "m3/s" scenario2)).
  now vm_compute.
Defined.

Lemma key_same_number (x y : number) :
  isNaN x = false -> isNaN y = false -> key x = key y -> same_number x y.
Proof.
  destruct x as [sx|[]| |[] mx ex], y as [sy|[]| |[] my ey]; simpl;
    intros Hx Hy H; try discriminate; try constructor;
    inversion H; subst;
    repeat match goal with
           | H : (- _ = - _)%Z |- _ => apply Z.opp_inj in H; subst
           end; constructor.
Qed.

Lemma leb_antisym (x y : number) :
  isNaN x = false -> isNaN y = false ->
  leb x y = true -> leb y x = true -> same_number x y.
Proof.
  intros Hx Hy Hxy Hyx. apply key_same_number; trivial.
  apply leb_key in Hxy; trivial. apply leb_key in Hyx; trivial.
  unfold lex_le in *.
  destruct (key x) as [[a1 a2] a3], (key y) as [[b1 b2] b3].
  assert (a1 = b1 /\ a2 = b2 /\ a3 = b3) as [-> [-> ->]] by lia.
  reflexivity.
Qed.

Lemma lowest_permutation (l l' : list number) :
  NaN_free l -> Permutation l l' -> same_number (lowest l) (lowest l').
Proof.
  intros Hl P.
  assert (Hl' : NaN_free l').
  { apply Forall_forall. intros x Hx. apply (proj1 (Forall_forall _ l) Hl).
    apply (Permutation_in x (Permutation_sym P) Hx). }
  destruct l as [|x l].
  - apply Permutation_nil in P. subst. constructor.
  - assert (Hne : x :: l <> []) by discriminate.
    assert (Hne' : l' <> []).
    { intros ->. apply Permutation_sym, Permutation_nil in P. discriminate. }
    destruct (@lowest_least (x :: l) Hl Hne) as [N [I L]].
    destruct (@lowest_least l' Hl' Hne') as [N' [I' L']].
    apply leb_antisym; trivial.
    + apply L. apply (Permutation_in _ (Permutation_sym P) I').
    + apply L'. apply (Permutation_in _ P I).
Qed.

Lemma highest_permutation (l l' : list number) :
  NaN_free l -> Permutation l l' -> same_number (highest l) (highest l').
Proof.
  intros Hl P.
  assert (Hl' : NaN_free l').
  { apply Forall_forall. intros x Hx. apply (proj1 (Forall_forall _ l) Hl).
    apply (Permutation_in x (Permutation_sym P) Hx). }
  destruct l as [|x l].
  - apply Permutation_nil in P. subst. constructor.
  - assert (Hne : x :: l <> []) by discriminate.
    assert (Hne' : l' <> []).
    { intros ->. apply Permutation_sym, Permutation_nil in P. discriminate. }
    destruct (@highest_greatest (x :: l) Hl Hne) as [N [I L]].
    destruct (@highest_greatest l' Hl' Hne') as [N' [I' L']].
    apply leb_antisym; trivial.
    + apply L'. apply (Permutation_in _ P I).
    + apply L. apply (Permutation_in _ (Permutation_sym P) I').
Qed.

(** X14: [count], [min] and [max] do not depend on the order of the
    readings: two series with the same readings in another order, no more
    of them than the engine accepts arguments, have the same count and, the
    sign of a zero apart, the same minimum and maximum. *)
Theorem stats_order_independent (argumentLimit : N) (sd1 sd2 : StationData) :
  Permutation (observations sd1) (observations sd2) ->
  (N.of_nat (List.length (observations sd1)) <= argumentLimit)%N ->
  exists st1 st2,
    stats argumentLimit (Some sd1) = Normal (Some st1)
    /\ stats argumentLimit (Some sd2) = Normal (Some st2)
    /\ count st1 = count st2
    /\ same_number (min st1) (min st2)
    /\ same_number (max st1) (max st2).
Proof.
  intros P Hlen. exists (summary sd1), (summary sd2).
  split; [now apply stats_within|].
  split; [apply stats_within; now rewrite <- (Permutation_length P)|].
  unfold summary. cbn [count min max]. unfold length_of.
  assert (P' : Permutation (map (fun o => orZero (value o)) (observations sd1))
                           (map (fun o => orZero (value o)) (observations sd2)))
    by now apply Permutation_map.
  split; [now rewrite (Permutation_length P)|].
  split; [apply lowest_permutation | apply highest_permutation];
    auto using orZero_values_NaN_free.
Qed.

Lemma stats_order_independent_witness :
  exists st1 st2,
    stats engine_limit (Some (series "m3/s" scenario2)) = Normal (Some st1)
    /\ stats engine_limit (Some (series "m" (rev scenario2))) = Normal (Some st2)
    /\ count st1 = count st2
    /\ same_number (min st1) (min st2)
    /\ same_number (max st1) (max st2).
Proof.
  apply (@stats_order_independent engine_limit (series "m3/s" scenario2)
           (series "m" (rev scenario2))).
  - apply Permutation_rev.
  - now vm_compute.
Defined.

Section ChartMore.

Variable toLocaleDateString : string -> string.

(** The chart has one point per reading, in the order of the readings,
    labelled from the reading's timestamp and carrying its value untouched:
    a [null] stays [null] in the chart, where the statistics read 0; the
    statistics count the chart's points. *)
Lemma chartData_points (sd : StationData) :
  map cp_value (chartData toLocaleDateString (Some sd))
  = map value (observations sd)
  /\ map cp_time (chartData toLocaleDateString (Some sd))
     = map (fun o => toLocaleDateString (time o)) (observations sd)
  /\ (forall argumentLimit st,
        stats argumentLimit (Some sd) = Normal (Some st) ->
        count st = ofNat (List.length (chartData toLocaleDateString (Some sd)))).
Proof.
  unfold chartData. rewrite !map_map, length_map.
  split; [reflexivity|]. split; [reflexivity|].
  intros limit st E. unfold stats in E.
  destruct (Math_min limit _); [|discriminate].
  destruct (Math_max limit _); inversion E. reflexivity.
Qed.

End ChartMore.

(** * The page as a whole *)

(** What [fetchStationData] can touch and send, guard or no guard. *)
Lemma fetchStationData_effect (id : option string)
    (r : Response (list SeriesGroup)) (st : State) :
  outside_series (fst (fetchStationData id r st)) = outside_series st
  /\ (loading st = false -> loading (fst (fetchStationData id r st)) = false)
  /\ Forall (fun e =>
        match e with
        | Fetch q =>
            q = GetObservations (apiKey st) id (parameter st) "0"
                                (startDate st ++ "/" ++ endDate st)
            /\ apiKey st <> "" /\ startDate st <> "" /\ endDate st <> ""
        | Alert _ => True
        | Download _ _ _ => False
        end) (snd (fetchStationData id r st)).
Proof.
  rewrite !fetchStationData_atomic.
  destruct (String.eqb_spec (apiKey st) "") as [K|K];
    destruct (String.eqb_spec (startDate st) "") as [S|S];
    destruct (String.eqb_spec (endDate st) "") as [E|E]; cbn [orb fst snd];
    try (repeat split; [tauto | constructor]).
  destruct r as [m|c m|c m|c [[|g gs]|]]; cbn [fst snd];
    (split; [reflexivity|]); (split; [reflexivity|]);
    repeat constructor; assumption.
Qed.

(** What [fetchStations] can touch and send. *)
Lemma fetchStations_effect (r : Response (list Station)) (st : State) :
  outside_catalog (fst (fetchStations r st)) = outside_catalog st
  /\ (loading st = false -> loading (fst (fetchStations r st)) = false)
  /\ Forall (fun e =>
        match e with
        | Fetch q => q = GetStations (apiKey st) /\ apiKey st <> ""
        | Alert _ => True
        | Download _ _ _ => False
        end) (snd (fetchStations r st)).
Proof.
  rewrite !fetchStations_atomic.
  destruct (String.eqb_spec (apiKey st) "") as [K|K]; cbn [fst snd].
  - repeat split; [tauto | constructor].
  - destruct r; cbn [fst snd]; repeat split; repeat constructor; assumption.
Qed.

Lemma existsb_eqb_In (code : string) (l : list string) :
  existsb (String.eqb code) l = true -> In code l.
Proof.
  intros H. apply existsb_exists in H as [x [Hx E]].
  apply String.eqb_eq in E. now subst.
Qed.

Section PageFacts.

Variable toLowerCase : string -> string.
Variable numberToString : number -> string.

(** A property of pages and a property of events that every enabled action
    keeps hold along every sequence of actions. *)
Lemma run_keeps (P : State -> Prop) (Q : Event -> Prop) :
  (forall a st, P st -> available a st = true ->
     P (fst (act toLowerCase numberToString a st))
     /\ Forall Q (snd (act toLowerCase numberToString a st))) ->
  forall actions st st' events,
    P st -> run toLowerCase numberToString actions st = Some (st', events) ->
    P st' /\ Forall Q events.
Proof.
  intros Hstep. induction actions as [|a rest IH]; intros st st' events HP Hrun.
  - inversion Hrun; subst. split; [exact HP | constructor].
  - cbn [run] in Hrun.
    destruct (available a st) eqn:Ha; [|discriminate].
    destruct (Hstep a st HP Ha) as [HP1 HQ1].
    destruct (act toLowerCase numberToString a st) as [st1 ev1].
    cbn [fst snd] in *.
    destruct (run toLowerCase numberToString rest st1) as [[st2 ev2]|] eqn:Hrest;
      [|discriminate].
    inversion Hrun; subst.
    destruct (IH st1 st' ev2 HP1 Hrest) as [HP2 HQ2].
    split; [exact HP2 | apply Forall_app; now split].
Qed.

Lemma mount_page_invariant (envKey weekAgo today : string) :
  page_invariant toLowerCase (mount envKey weekAgo today).
Proof.
  unfold page_invariant, mount; cbn.
  repeat split; try discriminate; try tauto.
Qed.

Lemma downloadCSV_state (st : State) :
  fst (downloadCSV numberToString st) = st
  /\ Forall well_formed_event (snd (downloadCSV numberToString st)).
Proof.
  unfold downloadCSV.
  destruct (stationData st) as [sd|]; [|split; [reflexivity | constructor]].
  destruct (observations sd); split; try reflexivity; repeat constructor.
Qed.

Lemma shown_in_catalog (st : State) (index : nat) (s : Station) :
  filteredStations st = filterStations toLowerCase (stations st) (searchTerm st) ->
  nth_error (shownStations st) index = Some s -> In s (stations st).
Proof.
  intros Hf Hn. apply nth_error_In in Hn. unfold shownStations in Hn.
  apply (Subsequence_In (firstn_Subsequence 50 (filteredStations st))) in Hn.
  rewrite Hf in Hn.
  exact (Subsequence_In (filterStations_Subsequence toLowerCase _ _) s Hn).
Qed.

(** After [fetchStationData] the page is in order, given it was and the
    selection is a catalog station. *)
Lemma fetchStationData_keeps_page (id : option string)
    (r : Response (list SeriesGroup)) (st : State) :
  loading st = false ->
  filteredStations st = filterStations toLowerCase (stations st) (searchTerm st) ->
  selectedStation st <> None ->
  (forall s, selectedStation st = Some s -> In s (stations st)) ->
  In (parameter st) parameterOptions ->
  showApiKeyInput st = false ->
  page_invariant toLowerCase (fst (fetchStationData id r st))
  /\ Forall well_formed_event (snd (fetchStationData id r st)).
Proof.
  intros Hl Hf Hsel Hd Hp Hk.
  destruct (fetchStationData_effect id r st) as [Hout [Hload Hev]].
  unfold outside_series in Hout. inversion Hout as [[E1 E2 E3 E4 E5 E6 E7 E8 E9]].
  split.
  - unfold page_invariant. rewrite E2, E3, E4, E5, E8, E9.
    repeat split; auto; congruence.
  - eapply Forall_impl; [|exact Hev].
    intros [q|m|f mime c]; cbn; auto.
    intros [-> [K [S E]]]. cbn. repeat split; auto.
    exists (startDate st), (endDate st). auto.
Qed.

(** Every enabled action leaves the page in order and sends only
    well-formed requests. *)
Lemma act_keeps_page (a : Action) (st : State) :
  page_invariant toLowerCase st -> available a st = true ->
  page_invariant toLowerCase (fst (act toLowerCase numberToString a st))
  /\ Forall well_formed_event (snd (act toLowerCase numberToString a st)).
Proof.
  intros [Hl [Hf [Hc [Hd [Hp Hk]]]]] Ha.
  destruct a as [text|r|r|text|index r|code|date|date|r|]; cbn [available] in Ha;
    cbn [act].
  - (* TypeKey *)
    split; [|constructor]. unfold page_invariant; cbn. auto 10.
  - (* PressEnter *)
    destruct (Hk Ha) as [Hcat [Hterm [Hsel Hsd]]].
    pose proof Hf as Hf'. rewrite Hterm in Hf'.
    unfold connect. rewrite !fetchStations_atomic.
    destruct (String.eqb_spec (apiKey st) "") as [K|K].
    + destruct r; cbn [fst snd]; (split; [|constructor]);
        unfold page_invariant; auto 10.
    + destruct r as [m|c m|c m|c d]; cbn [fst snd];
        (split; [|repeat constructor; exact K]);
        unfold page_invariant; cbn; rewrite ?Hterm, ?Hsel, ?Hsd;
        repeat split; auto; try discriminate.
  - (* ClickConnect *)
    apply andb_true_iff in Ha as [Ha _].
    destruct (Hk Ha) as [Hcat [Hterm [Hsel Hsd]]].
    pose proof Hf as Hf'. rewrite Hterm in Hf'.
    unfold connect. rewrite !fetchStations_atomic.
    destruct (String.eqb_spec (apiKey st) "") as [K|K].
    + destruct r; cbn [fst snd]; (split; [|constructor]);
        unfold page_invariant; auto 10.
    + destruct r as [m|c m|c m|c d]; cbn [fst snd];
        (split; [|repeat constructor; exact K]);
        unfold page_invariant; cbn; rewrite ?Hterm, ?Hsel, ?Hsd;
        repeat split; auto; try discriminate.
  - (* TypeSearch *)
    apply negb_true_iff in Ha.
    destruct (String.eqb text (searchTerm st)); cbn [fst snd];
      (split; [|now constructor]); unfold page_invariant; cbn;
      repeat split; auto; congruence.
  - (* ClickStation *)
    apply andb_true_iff in Ha as [Ha Hn]. apply negb_true_iff in Ha.
    destruct (nth_error (shownStations st) index) as [s|] eqn:En; [|discriminate].
    apply fetchStationData_keeps_page; cbn; auto; try discriminate.
    intros s' E. inversion E; subst. exact (shown_in_catalog st index Hf En).
  - (* ChooseParameter *)
    apply andb_true_iff in Ha as [Ha Hcode]. apply negb_true_iff in Ha.
    split; [|constructor]. unfold page_invariant; cbn.
    repeat split; auto; try congruence.
    exact (existsb_eqb_In _ _ Hcode).
  - (* PickStartDate *)
    apply negb_true_iff in Ha.
    split; [|constructor]. unfold page_invariant; cbn. auto 10.
  - (* PickEndDate *)
    apply negb_true_iff in Ha.
    split; [|constructor]. unfold page_invariant; cbn. auto 10.
  - (* ClickRefresh *)
    apply andb_true_iff in Ha as [Ha _]. apply andb_true_iff in Ha as [Ha Hs].
    apply negb_true_iff in Ha.
    destruct (selectedStation st) as [s|] eqn:Es; [|discriminate].
    apply fetchStationData_keeps_page; rewrite ?Es; auto; discriminate.
  - (* ClickDownload *)
    destruct (downloadCSV_state st) as [-> Hev].
    split; [|exact Hev]. unfold page_invariant. auto 10.
Qed.

(** On every page reached from the first render the page is in order, and
    every request sent on the way was well formed. *)
Lemma run_from_mount (envKey weekAgo today : string) (actions : list Action)
    (st : State) (events : list Event) :
  run toLowerCase numberToString actions (mount envKey weekAgo today)
  = Some (st, events) ->
  page_invariant toLowerCase st /\ Forall well_formed_event events.
Proof.
  intros H.
  exact (@run_keeps (page_invariant toLowerCase) well_formed_event
           act_keeps_page actions _ st events
           (mount_page_invariant envKey weekAgo today) H).
Qed.

End PageFacts.

Example visit_runs :
  run ascii_toLowerCase integerToString visit visit_start
  = Some (visit_end, visit_events).
Proof. vm_compute. reflexivity. Qed.

Section PageTheorems.

Variable toLowerCase : string -> string.
Variable numberToString : number -> string.

(** X15: on every page reached from the first render, the stations under
    the search field are the catalog filtered by the term in the field, the
    whole catalog when the field is empty; the buttons shown are at most 50
    of them, in catalog order. *)
Theorem run_list_is_filtered_catalog (envKey weekAgo today : string)
    (actions : list Action) (st : State) (events : list Event) :
  run toLowerCase numberToString actions (mount envKey weekAgo today)
  = Some (st, events) ->
  filteredStations st = filterStations toLowerCase (stations st) (searchTerm st)
  /\ (searchTerm st = "" -> filteredStations st = stations st)
  /\ Subsequence (shownStations st) (stations st)
  /\ List.length (shownStations st) <= 50.
Proof.
  intros H.
  destruct (run_from_mount toLowerCase numberToString _ _ _ _ H)
    as [[_ [Hf _]] _].
  split; [exact Hf|]. split; [intros E; now rewrite Hf, E|].
  unfold shownStations. split; [|apply firstn_le_length].
  apply Subsequence_trans with (l2 := filteredStations st).
  - rewrite Hf. apply filterStations_Subsequence.
  - apply firstn_Subsequence.
Qed.

(** X17: every request sent on the way from the first render carries a
    non-empty key; a request for observations asks for one of the six
    parameter codes, at resolution 0, over a range made of two non-empty
    dates. *)
Theorem run_requests_well_formed (envKey weekAgo today : string)
    (actions : list Action) (st : State) (events : list Event) :
  run toLowerCase numberToString actions (mount envKey weekAgo today)
  = Some (st, events) ->
  Forall well_formed_event events.
Proof.
  intros H. exact (proj2 (run_from_mount toLowerCase numberToString _ _ _ _ H)).
Qed.

(** With a build-time key nothing can be loaded: no action that is enabled
    changes the empty catalog or sends anything. *)
Lemma act_without_catalog (a : Action) (st : State) :
  (showApiKeyInput st = false /\ stations st = [] /\ filteredStations st = []
   /\ selectedStation st = None /\ stationData st = None) ->
  available a st = true ->
  (showApiKeyInput (fst (act toLowerCase numberToString a st)) = false
   /\ stations (fst (act toLowerCase numberToString a st)) = []
   /\ filteredStations (fst (act toLowerCase numberToString a st)) = []
   /\ selectedStation (fst (act toLowerCase numberToString a st)) = None
   /\ stationData (fst (act toLowerCase numberToString a st)) = None)
  /\ Forall (fun _ => False) (snd (act toLowerCase numberToString a st)).
Proof.
  intros [Hs [Hc [Hf [Hsel Hsd]]]] Ha.
  destruct a as [text|r|r|text|index r|code|date|date|r|]; cbn [available] in Ha;
    cbn [act]; unfold shownStations in *;
    rewrite ?Hs, ?Hf, ?Hsel, ?Hsd in Ha; cbn in Ha;
    try discriminate.
  - destruct (String.eqb text (searchTerm st)); cbn;
      (split; [|constructor]); repeat split; auto.
    rewrite Hc. now destruct text.
  - destruct index; discriminate.
  - split; [cbn; auto 10 | constructor].
  - split; [cbn; auto 10 | constructor].
  - split; [cbn; auto 10 | constructor].
Qed.

(** X19: when the page is built with a key ([VITE_NVE_API_KEY] set) the key
    screen is skipped and with it the only controls that call
    [fetchStations]: whatever the user does, the catalog stays empty, no
    station can be selected, no series is shown and no request is sent. *)
Theorem build_time_key_never_loads (envKey weekAgo today : string)
    (actions : list Action) (st : State) (events : list Event) :
  envKey <> "" ->
  run toLowerCase numberToString actions (mount envKey weekAgo today)
  = Some (st, events) ->
  stations st = [] /\ selectedStation st = None /\ stationData st = None
  /\ events = [].
Proof.
  intros Hkey H.
  assert (Hstart : showApiKeyInput (mount envKey weekAgo today) = false
                   /\ stations (mount envKey weekAgo today) = []
                   /\ filteredStations (mount envKey weekAgo today) = []
                   /\ selectedStation (mount envKey weekAgo today) = None
                   /\ stationData (mount envKey weekAgo today) = None).
  { cbn. repeat split. now apply String.eqb_neq. }
  destruct (@run_keeps toLowerCase numberToString _ (fun _ => False)
              act_without_catalog actions _ st events Hstart H)
    as [[_ [Hc [_ [Hsel Hsd]]]] Hev].
  repeat split; trivial.
  destruct events as [|e events]; [reflexivity|]. now inversion Hev.
Qed.

(** X20: the first connection.  From the key screen with a typed key, the
    connect button sends one request for the catalog; a parsed body leaves
    the key screen with the catalog loaded and listed in full; a request that
    throws shows the message and stays on the key screen with nothing
    loaded.  With no key typed the button is disabled. *)
Theorem first_connect (k weekAgo today : string) (status : Z)
    (cat : list Station) (m : string) :
  k <> "" ->
  run toLowerCase numberToString
      [TypeKey k; ClickConnect (Json status (Some cat))] (mount "" weekAgo today)
  = Some (mkState k cat cat "" None None false weekAgo today "1001" false,
          [Fetch (GetStations k)])
  /\ run toLowerCase numberToString
         [TypeKey k; ClickConnect (NetworkError m)] (mount "" weekAgo today)
     = Some (mkState k [] [] "" None None false weekAgo today "1001" true,
             [Fetch (GetStations k); Alert ("Error fetching stations: " ++ m)])
  /\ run toLowerCase numberToString
         [ClickConnect (Json status (Some cat))] (mount "" weekAgo today)
     = None.
Proof.
  intros Hk. apply String.eqb_neq in Hk.
  cbn [run available act mount setApiKey showApiKeyInput apiKey loading].
  unfold connect. rewrite !fetchStations_atomic.
  cbn [apiKey String.eqb andb orb negb]. rewrite Hk. cbn.
  rewrite !Hk. repeat split.
Qed.

(** X21: choosing a parameter sends nothing and leaves the series on the
    page; the refresh button then asks for the selected station with the new
    parameter code and the dates in the pickers. *)
Theorem parameter_change_then_refresh (code : string) (s : Station)
    (r : Response (list SeriesGroup)) (st : State) :
  showApiKeyInput st = false -> loading st = false ->
  selectedStation st = Some s ->
  apiKey st <> "" -> startDate st <> "" -> endDate st <> "" ->
  In code parameterOptions ->
  run toLowerCase numberToString [ChooseParameter code] st
  = Some (setParameter code st, [])
  /\ exists st' events,
       run toLowerCase numberToString [ChooseParameter code; ClickRefresh r] st
       = Some (st', events)
       /\ filter is_fetch events
          = [Fetch (GetObservations (apiKey st) (stationId s) code "0"
                                    (startDate st ++ "/" ++ endDate st))]
       /\ parameter st' = code /\ selectedStation st' = Some s.
Proof.
  intros Hs Hl Hsel K S E Hcode.
  assert (Hopt : existsb (String.eqb code) parameterOptions = true).
  { apply existsb_exists. exists code. split; [exact Hcode | apply String.eqb_refl]. }
  cbn [run available act]. rewrite Hs, Hopt. cbn [negb andb fst snd].
  cbn [showApiKeyInput selectedStation loading setParameter].
  rewrite Hs, Hsel, Hl. cbn [negb andb is_some app].
  split; [reflexivity|].
  destruct (@fetchStationData_request (stationId s) r (setParameter code st) K S E)
    as [Hreq _].
  destruct (fetchStationData_effect (stationId s) r (setParameter code st))
    as [Hout _].
  destruct (fetchStationData (stationId s) r (setParameter code st)) as [st' events].
  cbn [fst snd] in *. exists st', (events ++ [])%list.
  rewrite app_nil_r. split; [reflexivity|]. split; [exact Hreq|].
  unfold outside_series in Hout. inversion Hout as [[E1 E2 E3 E4 E5 E6 E7 E8 E9]].
  rewrite E8, E5. cbn. auto.
Qed.

(** X22: a click on a station while a date picker is empty selects the
    station and sends nothing; the series of the station shown before stays
    on the page under the new selection. *)
Theorem click_without_dates (index : nat) (s : Station)
    (r : Response (list SeriesGroup)) (st : State) :
  showApiKeyInput st = false ->
  nth_error (shownStations st) index = Some s ->
  startDate st = "" \/ endDate st = "" ->
  run toLowerCase numberToString [ClickStation index r] st
  = Some (setSelectedStation (Some s) st, [])
  /\ stationData (setSelectedStation (Some s) st) = stationData st.
Proof.
  intros Hs Hn Hdate.
  cbn [run available act]. rewrite Hs, Hn. cbn [negb andb is_some].
  assert (Hnoop : fetchStationData (stationId s) r (setSelectedStation (Some s) st)
                  = (setSelectedStation (Some s) st, [])).
  { rewrite !fetchStationData_atomic. cbn [apiKey startDate endDate setSelectedStation].
    destruct Hdate as [-> | ->]; cbn [String.eqb orb];
      rewrite ?orb_true_r; reflexivity. }
  rewrite Hnoop. split; reflexivity.
Qed.

End PageTheorems.

Lemma run_list_is_filtered_catalog_witness :
  filteredStations visit_end
  = filterStations ascii_toLowerCase (stations visit_end) (searchTerm visit_end)
  /\ (searchTerm visit_end = "" -> filteredStations visit_end = stations visit_end)
  /\ Subsequence (shownStations visit_end) (stations visit_end)
  /\ List.length (shownStations visit_end) <= 50.
Proof.
  apply (@run_list_is_filtered_catalog ascii_toLowerCase integerToString
           "" "2024-01-01" "2024-01-08" visit visit_end visit_events).
  vm_compute. reflexivity.
Defined.

Lemma run_requests_well_formed_witness : Forall well_formed_event visit_events.
Proof.
  apply (@run_requests_well_formed ascii_toLowerCase integerToString
           "" "2024-01-01" "2024-01-08" visit visit_end visit_events).
  vm_compute. reflexivity.
Defined.

Lemma build_time_key_never_loads_witness :
  stations (setSearchTerm "glom" (setEndDate "2024-02-01" keyed_start)) = []
  /\ selectedStation (setSearchTerm "glom" (setEndDate "2024-02-01" keyed_start)) = None
  /\ stationData (setSearchTerm "glom" (setEndDate "2024-02-01" keyed_start)) = None
  /\ @nil Event = [].
Proof.
  apply (@build_time_key_never_loads ascii_toLowerCase integerToString
           "key" "2024-01-01" "2024-01-08"
           [PickEndDate "2024-02-01"; TypeSearch "glom"]).
  - discriminate.
  - vm_compute. reflexivity.
Defined.

Lemma first_connect_witness :
  run ascii_toLowerCase integerToString
      [TypeKey "key"; ClickConnect (Json 200 (Some [glomma; gaula]))] visit_start
  = Some (connected, [Fetch (GetStations "key")]).
Proof.
  apply (@first_connect ascii_toLowerCase integerToString "key" "2024-01-01"
           "2024-01-08" 200 [glomma; gaula] "Failed to fetch").
  discriminate.
Defined.

Lemma parameter_change_then_refresh_witness :
  run ascii_toLowerCase integerToString [ChooseParameter "1003"] visit_end
  = Some (setParameter "1003" visit_end, []).
Proof.
  apply (@parameter_change_then_refresh ascii_toLowerCase integerToString
           "1003" glomma (Json 200 None) visit_end); try reflexivity;
    try discriminate.
  vm_compute. tauto.
Defined.

Lemma click_without_dates_witness :
  run ascii_toLowerCase integerToString [ClickStation 1 (Json 200 None)]
      (setStartDate "" (viewing (series "m3/s" scenario2)))
  = Some (setSelectedStation (Some gaula)
            (setStartDate "" (viewing (series "m3/s" scenario2))), [])
  /\ stationData (setSelectedStation (Some gaula)
                    (setStartDate "" (viewing (series "m3/s" scenario2))))
     = stationData (setStartDate "" (viewing (series "m3/s" scenario2))).
Proof.
  apply (@click_without_dates ascii_toLowerCase integerToString 1 gaula
           (Json 200 None) (setStartDate "" (viewing (series "m3/s" scenario2)))).
  - reflexivity.
  - reflexivity.
  - left. reflexivity.
Defined.

(** * The page with requests under way *)

Lemma existsb_without (A : Type) (f : A -> bool) (index : nat) (l : list A) :
  existsb f (without index l) = true -> existsb f l = true.
Proof.
  revert index; induction l as [|x l IH]; intros [|n]; unfold without;
    cbn [firstn skipn app existsb]; try discriminate.
  - intros H. now rewrite H, orb_true_r.
  - rewrite !orb_true_iff. intros [H|H]; [now left|right].
    apply (IH n). exact H.
Qed.

Lemma existsb_nth_error (A : Type) (f : A -> bool) (index : nat) (l : list A) (x : A) :
  nth_error l index = Some x -> f x = true -> existsb f l = true.
Proof.
  intros Hn Hf. apply existsb_exists. exists x. split; [|exact Hf].
  eapply nth_error_In; eauto.
Qed.

Lemma up_to_await_stations (st : State) :
  up_to_await fetchStations_send st
  = if (apiKey st =? "")%string then (st, [])
    else (setLoading true st, [Fetch (GetStations (apiKey st))]).
Proof.
  unfold up_to_await, fetchStations_send. now destruct (apiKey st =? "")%string.
Qed.

Lemma up_to_await_observations (id : option string) (st : State) :
  up_to_await (fetchStationData_send id) st
  = if (apiKey st =? "")%string || (startDate st =? "")%string
       || (endDate st =? "")%string
    then (st, [])
    else (setStationData None (setLoading true st),
          [Fetch (GetObservations (apiKey st) id (parameter st) "0"
                                  (startDate st ++ "/" ++ endDate st))]).
Proof.
  unfold up_to_await, fetchStationData_send.
  now destruct ((apiKey st =? "")%string || (startDate st =? "")%string
                || (endDate st =? "")%string).
Qed.

Lemma sent_observations_only (events : list Event) :
  Forall (fun e => exists k i c r t, e = Fetch (GetObservations k i c r t)) events ->
  existsb is_stations_request (sent events) = false.
Proof.
  induction 1 as [|e l [k [i [c [r [t ->]]]]] _ IH]; [reflexivity|].
  cbn. exact IH.
Qed.

Lemma available_enabled (a : Action) (st : State) :
  available a st = enabled (control_of a) st.
Proof. destruct a; reflexivity. Qed.

Section LivePageFacts.

Variable toLowerCase : string -> string.
Variable numberToString : number -> string.

(** A property of pages and a property of events that every move keeps hold
    along every sequence of moves. *)
Lemma play_keeps (P : Page -> Prop) (Q : Event -> Prop) :
  (forall m p p' events, P p ->
     move toLowerCase numberToString m p = Some (p', events) ->
     P p' /\ Forall Q events) ->
  forall moves p p' events,
    P p -> play toLowerCase numberToString moves p = Some (p', events) ->
    P p' /\ Forall Q events.
Proof.
  intros Hstep. induction moves as [|m rest IH]; intros p p' events HP Hplay.
  - inversion Hplay; subst. split; [exact HP | constructor].
  - cbn [play] in Hplay.
    destruct (move toLowerCase numberToString m p) as [[p1 ev1]|] eqn:Hm;
      [|discriminate].
    destruct (Hstep m p p1 ev1 HP Hm) as [HP1 HQ1].
    destruct (play toLowerCase numberToString rest p1) as [[p2 ev2]|] eqn:Hrest;
      [|discriminate].
    inversion Hplay; subst.
    destruct (IH p1 p' ev2 HP1 Hrest) as [HP2 HQ2].
    split; [exact HP2 | apply Forall_app; now split].
Qed.

Lemma play_app (ms1 ms2 : list Move) (p : Page) :
  play toLowerCase numberToString (ms1 ++ ms2) p
  = match play toLowerCase numberToString ms1 p with
    | Some (p1, ev1) =>
        match play toLowerCase numberToString ms2 p1 with
        | Some (p2, ev2) => Some (p2, (ev1 ++ ev2)%list)
        | None => None
        end
    | None => None
    end.
Proof.
  revert p; induction ms1 as [|m ms1 IH]; intros p; cbn [play app].
  - destruct (play toLowerCase numberToString ms2 p) as [[p2 ev2]|]; reflexivity.
  - destruct (move toLowerCase numberToString m p) as [[p1 ev1]|]; [|reflexivity].
    rewrite IH.
    destruct (play toLowerCase numberToString ms1 p1) as [[p2 ev2]|]; [|reflexivity].
    destruct (play toLowerCase numberToString ms2 p2) as [[p3 ev3]|]; [|reflexivity].
    now rewrite app_assoc.
Qed.

(** An action whose request ends before anything else happens is a use of
    its control followed by the end of its request. *)
Lemma act_is_play (a : Action) (st : State) :
  available a st = true ->
  play toLowerCase numberToString
       (moves_of toLowerCase numberToString a st) (mkPage st [])
  = Some (mkPage (fst (act toLowerCase numberToString a st)) [],
          snd (act toLowerCase numberToString a st)).
Proof.
  intros Ha. rewrite available_enabled in Ha.
  unfold moves_of. cbn [play move session under_way].
  rewrite Ha.
  destruct a as [text|r|r|text|index r|code|date|date|r|];
    cbn [control_of use act] in *.
  - reflexivity.
  - unfold connect. rewrite fetchStations_atomic, up_to_await_stations.
    destruct (apiKey st =? "")%string eqn:K.
    + destruct r; reflexivity.
    + destruct r; reflexivity.
  - unfold connect. rewrite fetchStations_atomic, up_to_await_stations.
    destruct (apiKey st =? "")%string eqn:K.
    + destruct r; reflexivity.
    + destruct r; reflexivity.
  - destruct (text =? searchTerm st)%string; reflexivity.
  - destruct (nth_error (shownStations st) index) as [s|]; [|reflexivity].
    rewrite fetchStationData_atomic, up_to_await_observations.
    cbn [apiKey startDate endDate parameter setSelectedStation].
    destruct ((apiKey st =? "")%string || (startDate st =? "")%string
              || (endDate st =? "")%string); [reflexivity|].
    destruct r as [m|c m|c m|c [[|g gs]|]]; reflexivity.
  - reflexivity.
  - reflexivity.
  - reflexivity.
  - destruct (selectedStation st) as [s|]; [|reflexivity].
    rewrite fetchStationData_atomic, up_to_await_observations.
    destruct ((apiKey st =? "")%string || (startDate st =? "")%string
              || (endDate st =? "")%string); [reflexivity|].
    destruct r as [m|c m|c m|c [[|g gs]|]]; reflexivity.
  - unfold downloadCSV.
    destruct (stationData st) as [sd|]; [|reflexivity].
    destruct (observations sd); reflexivity.
Qed.

(** Every run of actions is a play of moves on the live page, with no
    request left under way: [run] is the live page restricted to requests
    that end before the next control is used. *)
Lemma run_is_play (actions : list Action) : forall st st' events,
  run toLowerCase numberToString actions st = Some (st', events) ->
  exists moves,
    play toLowerCase numberToString moves (mkPage st [])
    = Some (mkPage st' [], events).
Proof.
  induction actions as [|a rest IH]; intros st st' events Hrun.
  - inversion Hrun; subst. exists []. reflexivity.
  - cbn [run] in Hrun.
    destruct (available a st) eqn:Ha; [|discriminate].
    pose proof (act_is_play a st Ha) as Hact.
    destruct (act toLowerCase numberToString a st) as [st1 ev1].
    cbn [fst snd] in Hact.
    destruct (run toLowerCase numberToString rest st1) as [[st2 ev2]|] eqn:Hrest;
      [|discriminate].
    inversion Hrun; subst.
    destruct (IH st1 st' ev2 Hrest) as [moves Hmoves].
    exists (moves_of toLowerCase numberToString a st ++ moves)%list.
    now rewrite play_app, Hact, Hmoves.
Qed.

End LivePageFacts.

Section LivePageTheorems.

Variable toLowerCase : string -> string.
Variable numberToString : number -> string.

(** What the use of a control can do to the cells the invariants read. *)
Lemma use_observations_cells (id : option string) (st : State) :
  let st' := fst (up_to_await (fetchStationData_send id) st) in
  outside_series st' = outside_series st
  /\ (stationData st' = stationData st \/ stationData st' = None)
  /\ Forall (fun e => exists k i c r t, e = Fetch (GetObservations k i c r t))
            (snd (up_to_await (fetchStationData_send id) st)).
Proof.
  cbn zeta. rewrite up_to_await_observations.
  destruct ((apiKey st =? "")%string || (startDate st =? "")%string
            || (endDate st =? "")%string); cbn [fst snd].
  - repeat split; [now left | constructor].
  - repeat split; [now right|]. repeat constructor. eauto 10.
Qed.

Lemma resume_observations_cells (r : Response (list SeriesGroup)) (st : State) :
  outside_series (fst (fetchStationData_resume r st)) = outside_series st
  /\ sent (snd (fetchStationData_resume r st)) = []
  /\ Forall not_catalog_request (snd (fetchStationData_resume r st)).
Proof.
  unfold fetchStationData_resume.
  destruct r as [m|c m|c m|c [[|g gs]|]]; cbn; repeat split; repeat constructor.
Qed.

Lemma stations_arrive_cells (r : Response (list Station)) (st : State) :
  let st' := fst (stations_arrive toLowerCase r st) in
  apiKey st' = apiKey st
  /\ searchTerm st' = searchTerm st
  /\ selectedStation st' = selectedStation st
  /\ stationData st' = stationData st
  /\ (showApiKeyInput st = false -> showApiKeyInput st' = false)
  /\ (filteredStations st = filterStations toLowerCase (stations st) (searchTerm st) ->
      filteredStations st' = filterStations toLowerCase (stations st') (searchTerm st'))
  /\ sent (snd (stations_arrive toLowerCase r st)) = []
  /\ Forall not_catalog_request (snd (stations_arrive toLowerCase r st)).
Proof.
  unfold stations_arrive, fetchStations_resume.
  destruct r; cbn; repeat split; auto; repeat constructor.
Qed.

(** Every move keeps the live page in order. *)
Lemma move_keeps_live (m : Move) (p p' : Page) (events : list Event) :
  live_invariant toLowerCase p ->
  move toLowerCase numberToString m p = Some (p', events) ->
  live_invariant toLowerCase p' /\ Forall (fun _ => True) events.
Proof.
  intros [Hf [Hd Hu]] Hm.
  split; [|apply Forall_forall; trivial].
  destruct p as [st uw]. cbn [session under_way] in *.
  destruct m as [c|index r|index r]; cbn [move session under_way] in Hm.
  - destruct (enabled c st) eqn:Hc; [|discriminate].
    destruct c as [text| | |text|index|code|date|date| |]; cbn [use enabled] in *.
    + inversion Hm; subst. rewrite app_nil_r. unfold live_invariant; cbn. auto.
    + rewrite up_to_await_stations in Hm.
      destruct (apiKey st =? "")%string; inversion Hm; subst;
        unfold live_invariant; cbn [session under_way sent flat_map app];
        rewrite ?app_nil_r, ?existsb_app; cbn; rewrite ?orb_false_r; auto.
    + rewrite up_to_await_stations in Hm.
      destruct (apiKey st =? "")%string; inversion Hm; subst;
        unfold live_invariant; cbn [session under_way sent flat_map app];
        rewrite ?app_nil_r, ?existsb_app; cbn; rewrite ?orb_false_r; auto.
    + destruct (text =? searchTerm st)%string; inversion Hm; subst;
        rewrite app_nil_r; unfold live_invariant; cbn; auto.
    + destruct (nth_error (shownStations st) index) as [s|]; [|now rewrite andb_false_r in Hc].
      destruct (use_observations_cells (stationId s) (setSelectedStation (Some s) st))
        as [Hout _].
      destruct (up_to_await _ _) as [st1 ev1]. cbn [fst snd] in *.
      inversion Hm; subst. unfold outside_series in Hout.
      inversion Hout as [[E1 E2 E3 E4 E5 E6 E7 E8 E9]].
      unfold live_invariant. cbn [session under_way].
      rewrite E2, E3, E4, E5. cbn. repeat split; auto; discriminate.
    + inversion Hm; subst. rewrite app_nil_r. unfold live_invariant; cbn. auto.
    + inversion Hm; subst. rewrite app_nil_r. unfold live_invariant; cbn. auto.
    + inversion Hm; subst. rewrite app_nil_r. unfold live_invariant; cbn. auto.
    + destruct (selectedStation st) as [s|] eqn:Es;
        [|now rewrite andb_false_r in Hc].
      destruct (use_observations_cells (stationId s) st) as [Hout _].
      destruct (up_to_await _ _) as [st1 ev1]. cbn [fst snd] in *.
      inversion Hm; subst. unfold outside_series in Hout.
      inversion Hout as [[E1 E2 E3 E4 E5 E6 E7 E8 E9]].
      unfold live_invariant. cbn [session under_way].
      rewrite E2, E3, E4, E5, Es. repeat split; auto; discriminate.
    + destruct (downloadCSV_state numberToString st) as [Hst _].
      assert (Hsent : sent (snd (downloadCSV numberToString st)) = []).
      { unfold downloadCSV. destruct (stationData st) as [sd|]; [|reflexivity].
        destruct (observations sd); reflexivity. }
      destruct (downloadCSV numberToString st) as [st1 ev1]. cbn [fst snd] in *.
      inversion Hm; subst. rewrite Hsent, app_nil_r.
      unfold live_invariant; cbn. auto.
  - destruct (nth_error uw index) as [[k|k i c rs t]|] eqn:En; try discriminate.
    destruct (stations_arrive_cells r st) as [_ [E2 [E3 [E4 [_ [E6 _]]]]]].
    destruct (stations_arrive toLowerCase r st) as [st1 ev1]. cbn [fst snd] in *.
    inversion Hm; subst. unfold live_invariant. cbn [session under_way].
    rewrite E3, E4. repeat split; auto.
    intros H. apply Hu. exact (existsb_without _ _ _ H).
  - destruct (nth_error uw index) as [[k|k i c rs t]|] eqn:En; try discriminate.
    assert (Hsel : selectedStation st <> None).
    { apply Hu. exact (existsb_nth_error _ _ _ En eq_refl). }
    destruct (resume_observations_cells r st) as [Hout _].
    destruct (fetchStationData_resume r st) as [st1 ev1]. cbn [fst snd] in *.
    inversion Hm; subst. unfold outside_series in Hout.
    inversion Hout as [[E1 E2 E3 E4 E5 E6 E7 E8 E9]].
    unfold live_invariant. cbn [session under_way].
    rewrite E2, E3, E4, E5. repeat split; auto.
Qed.

(** X16: on every page reached from the first render, with requests ending
    in any order and at any moment, a series is on the page only with a
    selected station, so the invitation to choose a station and the data
    panel are never shown together; and every station that has a button is
    a station of the catalog of that moment. *)
Theorem play_series_needs_selection (envKey weekAgo today : string)
    (moves : list Move) (p : Page) (events : list Event) :
  play toLowerCase numberToString moves (mkPage (mount envKey weekAgo today) [])
  = Some (p, events) ->
  (stationData (session p) <> None -> selectedStation (session p) <> None)
  /\ (forall index s,
        nth_error (shownStations (session p)) index = Some s ->
        In s (stations (session p))).
Proof.
  intros H.
  assert (Hstart : live_invariant toLowerCase (mkPage (mount envKey weekAgo today) [])).
  { unfold live_invariant. cbn. repeat split; auto; discriminate. }
  destruct (@play_keeps toLowerCase numberToString (live_invariant toLowerCase)
              (fun _ => True) move_keeps_live moves _ p events Hstart H)
    as [[Hf [Hd _]] _].
  split; [exact Hd|].
  intros index s Hn. exact (shown_in_catalog toLowerCase (session p) index Hf Hn).
Qed.

(** Past the key screen every move stays past it, keeps the key and sends
    no request for the catalog. *)
Lemma move_past_key_screen (k : string) (m : Move) (p p' : Page)
    (events : list Event) :
  past_key_screen k p ->
  move toLowerCase numberToString m p = Some (p', events) ->
  past_key_screen k p' /\ Forall not_catalog_request events.
Proof.
  intros [Hs Hk] Hm. destruct p as [st uw]. cbn [session under_way] in *.
  unfold past_key_screen. cbn [session].
  destruct m as [c|index r|index r]; cbn [move session under_way] in Hm.
  - destruct (enabled c st) eqn:Hc; [|discriminate].
    destruct c as [text| | |text|index|code|date|date| |]; cbn [use enabled] in *;
      rewrite ?Hs in Hc; try discriminate.
    + destruct (text =? searchTerm st)%string; inversion Hm; subst; cbn;
        (split; [auto | constructor]).
    + destruct (nth_error (shownStations st) index) as [s|]; [|discriminate].
      destruct (use_observations_cells (stationId s) (setSelectedStation (Some s) st))
        as [Hout [_ Hev]].
      destruct (up_to_await _ _) as [st1 ev1]. cbn [fst snd] in *.
      inversion Hm; subst. unfold outside_series in Hout.
      inversion Hout as [[E1 E2 E3 E4 E5 E6 E7 E8 E9]].
      cbn in E1, E9. cbn [session]. split; [split; congruence|].
      eapply Forall_impl; [|exact Hev]. now intros e [? [? [? [? [? ->]]]]].
    + inversion Hm; subst. cbn. split; [auto | constructor].
    + inversion Hm; subst. cbn. split; [auto | constructor].
    + inversion Hm; subst. cbn. split; [auto | constructor].
    + destruct (selectedStation st) as [s|]; [|discriminate].
      destruct (use_observations_cells (stationId s) st) as [Hout [_ Hev]].
      destruct (up_to_await _ _) as [st1 ev1]. cbn [fst snd] in *.
      inversion Hm; subst. unfold outside_series in Hout.
      inversion Hout as [[E1 E2 E3 E4 E5 E6 E7 E8 E9]].
      cbn in E1, E9. cbn [session]. split; [split; congruence|].
      eapply Forall_impl; [|exact Hev]. now intros e [? [? [? [? [? ->]]]]].
    + destruct (downloadCSV_state numberToString st) as [Hst _].
      assert (Hev : Forall not_catalog_request (snd (downloadCSV numberToString st))).
      { unfold downloadCSV. destruct (stationData st) as [sd|]; [|constructor].
        destruct (observations sd); repeat constructor. }
      destruct (downloadCSV numberToString st) as [st1 ev1]. cbn [fst snd] in *.
      inversion Hm; subst. auto.
  - destruct (nth_error uw index) as [[k'|k' i c rs t]|]; try discriminate.
    destruct (stations_arrive_cells r st) as [E1 [_ [_ [_ [E5 [_ [_ Hev]]]]]]].
    destruct (stations_arrive toLowerCase r st) as [st1 ev1]. cbn [fst snd] in *.
    inversion Hm; subst. cbn [session]. split; [split; [auto | congruence] | exact Hev].
  - destruct (nth_error uw index) as [[k'|k' i c rs t]|]; try discriminate.
    destruct (resume_observations_cells r st) as [Hout [_ Hev]].
    destruct (fetchStationData_resume r st) as [st1 ev1]. cbn [fst snd] in *.
    inversion Hm; subst. unfold outside_series in Hout.
    inversion Hout as [[E1 E2 E3 E4 E5 E6 E7 E8 E9]].
    cbn in E1, E9. cbn [session]. split; [split; congruence | exact Hev].
Qed.

(** Past the key screen, when no catalog request is under way, none ever is
    again and the catalog stays. *)
Lemma move_catalog_settled (k : string) (cat : list Station) (m : Move)
    (p p' : Page) (events : list Event) :
  past_key_screen k p /\ catalog_settled cat p ->
  move toLowerCase numberToString m p = Some (p', events) ->
  (past_key_screen k p' /\ catalog_settled cat p') /\ Forall (fun _ => True) events.
Proof.
  intros [Hp [Hnone Hcat]] Hm.
  destruct (@move_past_key_screen k m p p' events Hp Hm) as [Hp' _].
  split; [|apply Forall_forall; trivial]. split; [exact Hp'|].
  destruct Hp as [Hs Hk]. destruct p as [st uw]. cbn [session under_way] in *.
  unfold catalog_settled. cbn [session under_way].
  destruct m as [c|index r|index r]; cbn [move session under_way] in Hm.
  - destruct (enabled c st) eqn:Hc; [|discriminate].
    destruct c as [text| | |text|index|code|date|date| |]; cbn [use enabled] in *;
      rewrite ?Hs in Hc; try discriminate.
    + destruct (text =? searchTerm st)%string; inversion Hm; subst; cbn;
        rewrite app_nil_r; auto.
    + destruct (nth_error (shownStations st) index) as [s|]; [|discriminate].
      destruct (use_observations_cells (stationId s) (setSelectedStation (Some s) st))
        as [Hout [_ Hev]].
      destruct (up_to_await _ _) as [st1 ev1]. cbn [fst snd] in *.
      inversion Hm; subst. unfold outside_series in Hout.
      inversion Hout as [[E1 E2 E3 E4 E5 E6 E7 E8 E9]].
      cbn [session under_way]. split; [|cbn in E2; congruence].
      now rewrite existsb_app, Hnone, (sent_observations_only Hev).
    + inversion Hm; subst. cbn. rewrite app_nil_r. auto.
    + inversion Hm; subst. cbn. rewrite app_nil_r. auto.
    + inversion Hm; subst. cbn. rewrite app_nil_r. auto.
    + destruct (selectedStation st) as [s|]; [|discriminate].
      destruct (use_observations_cells (stationId s) st) as [Hout [_ Hev]].
      destruct (up_to_await _ _) as [st1 ev1]. cbn [fst snd] in *.
      inversion Hm; subst. unfold outside_series in Hout.
      inversion Hout as [[E1 E2 E3 E4 E5 E6 E7 E8 E9]].
      cbn [session under_way]. split; [|cbn in E2; congruence].
      now rewrite existsb_app, Hnone, (sent_observations_only Hev).
    + destruct (downloadCSV_state numberToString st) as [Hst _].
      assert (Hsent : sent (snd (downloadCSV numberToString st)) = []).
      { unfold downloadCSV. destruct (stationData st) as [sd|]; [|reflexivity].
        destruct (observations sd); reflexivity. }
      destruct (downloadCSV numberToString st) as [st1 ev1]. cbn [fst snd] in *.
      inversion Hm; subst. rewrite Hsent, app_nil_r. auto.
  - destruct (nth_error uw index) as [[k'|k' i c rs t]|] eqn:En; try discriminate.
    rewrite (existsb_nth_error is_stations_request _ _ En eq_refl) in Hnone.
    discriminate.
  - destruct (nth_error uw index) as [[k'|k' i c rs t]|] eqn:En; try discriminate.
    destruct (resume_observations_cells r st) as [Hout _].
    destruct (fetchStationData_resume r st) as [st1 ev1]. cbn [fst snd] in *.
    inversion Hm; subst. unfold outside_series in Hout.
    inversion Hout as [[E1 E2 E3 E4 E5 E6 E7 E8 E9]].
    cbn [session under_way]. split; [|cbn in E2; congruence].
    destruct (existsb is_stations_request (without index uw)) eqn:Ew; [|reflexivity].
    apply existsb_without in Ew. congruence.
Qed.

(** X18: once the key screen is left it never comes back, whatever is used
    and whatever arrives, in any order: the page stays past it, the key
    stays what it is and no request for the catalog is sent again; and when
    no catalog request is still under way, none ever is again and the
    catalog stays what it is. *)
Theorem key_screen_never_returns (moves : list Move) (p p' : Page)
    (events : list Event) :
  showApiKeyInput (session p) = false ->
  play toLowerCase numberToString moves p = Some (p', events) ->
  showApiKeyInput (session p') = false
  /\ apiKey (session p') = apiKey (session p)
  /\ Forall not_catalog_request events
  /\ (existsb is_stations_request (under_way p) = false ->
      existsb is_stations_request (under_way p') = false
      /\ stations (session p') = stations (session p)).
Proof.
  intros Hs H.
  assert (Hp : past_key_screen (apiKey (session p)) p) by (split; auto).
  destruct (@play_keeps toLowerCase numberToString
              (past_key_screen (apiKey (session p))) not_catalog_request
              (@move_past_key_screen (apiKey (session p)))
              moves p p' events Hp H) as [[H1 H2] H3].
  repeat split; auto.
  - destruct (@play_keeps toLowerCase numberToString
                (fun q => past_key_screen (apiKey (session p)) q
                          /\ catalog_settled (stations (session p)) q)
                (fun _ => True)
                (@move_catalog_settled (apiKey (session p)) (stations (session p)))
                moves p p' events (conj Hp (conj H0 eq_refl)) H)
      as [[_ [H4 _]] _].
    exact H4.
  - destruct (@play_keeps toLowerCase numberToString
                (fun q => past_key_screen (apiKey (session p)) q
                          /\ catalog_settled (stations (session p)) q)
                (fun _ => True)
                (@move_catalog_settled (apiKey (session p)) (stations (session p)))
                moves p p' events (conj Hp (conj H0 eq_refl)) H)
      as [[_ [_ H5]] _].
    exact H5.
Qed.

End LivePageTheorems.

(** The visit with two catalog requests: the second answer empties the
    catalog under the selected station. *)
Example overlap_plays :
  play ascii_toLowerCase integerToString overlap (mkPage visit_start [])
  = Some (overlap_end, overlap_events).
Proof. vm_compute. reflexivity. Qed.

(** Two overlapping observation requests: the failure of the second leaves
    the series of the first on the page, under the second selection. *)
Example two_clicks_play :
  play ascii_toLowerCase integerToString two_clicks (mkPage connected [])
  = Some (mkPage (mkState "key" [glomma; gaula] [glomma; gaula] "" (Some gaula)
                          (Some (mkStationData "1" "Elv A" "Discharge" "m3/s"
                                               scenario2))
                          false "2024-01-01" "2024-01-08" "1001" false) [],
          [ Fetch (GetObservations "key" (Some "1") "1001" "0"
                                   "2024-01-01/2024-01-08");
            Fetch (GetObservations "key" (Some "2") "1001" "0"
                                   "2024-01-01/2024-01-08");
            Alert "Error fetching station data: Failed to fetch" ]).
Proof. vm_compute. reflexivity. Qed.

Lemma play_series_needs_selection_witness :
  (stationData (session overlap_end) <> None ->
   selectedStation (session overlap_end) <> None)
  /\ (forall index s,
        nth_error (shownStations (session overlap_end)) index = Some s ->
        In s (stations (session overlap_end))).
Proof.
  apply (@play_series_needs_selection ascii_toLowerCase integerToString
           "" "2024-01-01" "2024-01-08" overlap overlap_end overlap_events).
  vm_compute. reflexivity.
Defined.

Lemma key_screen_never_returns_witness :
  showApiKeyInput visit_end = false
  /\ apiKey visit_end = apiKey connected
  /\ Forall not_catalog_request
       [Fetch (GetObservations "key" (Some "1") "1001" "0" "2024-01-01/2024-01-08")]
  /\ (existsb is_stations_request (@nil Request) = false ->
      existsb is_stations_request (@nil Request) = false
      /\ stations visit_end = stations connected).
Proof.
  apply (@key_screen_never_returns ascii_toLowerCase integerToString
           [ Use (SearchField "glom");
             Use (StationButton 0);
             ObservationsArrive 0
               (Json 200 (Some [mkSeriesGroup "1" "Elv A" "Discharge" "m3/s"
                                              (Some scenario2)])) ]
           (mkPage connected []) (mkPage visit_end [])).
  - reflexivity.
  - vm_compute. reflexivity.
Defined.

(** X23: for a series with at least one observation and no more than the
    engine accepts arguments, whose values are JSON numbers or [null]:
    [count] is the number of observations, [min] and [max] are the minimum
    and the maximum of the values with [null] replaced by 0, and [avg] is
    the sum of these values, added in order, divided by [count]. *)
Theorem stats_within_limit (argumentLimit : N) (sd : StationData) :
  observations sd <> [] ->
  (N.of_nat (List.length (observations sd)) <= argumentLimit)%N ->
  (forall o, In o (observations sd) -> value o <> Some NaN) ->
  exists st,
    stats argumentLimit (Some sd) = Normal (Some st)
    /\ count st = ofNat (List.length (observations sd))
    /\ least (min st) (map (fun o => nullAsZero (value o)) (observations sd))
    /\ greatest (max st) (map (fun o => nullAsZero (value o)) (observations sd))
    /\ same_number (avg st)
         (div (total (map (fun o => nullAsZero (value o)) (observations sd)))
              (ofNat (List.length (observations sd)))).
Proof.
  intros Hne Hlen Hjson. exists (summary sd).
  split; [now apply stats_within|]. now apply summary_nonempty.
Qed.

Lemma stats_within_limit_witness :
  exists st,
    stats engine_limit (Some (series "m3/s" scenario2)) = Normal (Some st)
    /\ count st = ofNat 3
    /\ least (min st) [ofZ 10; zero; ofZ 20]
    /\ greatest (max st) [ofZ 10; zero; ofZ 20]
    /\ same_number (avg st) (div (total [ofZ 10; zero; ofZ 20]) (ofNat 3)).
Proof.
  apply (@stats_within_limit engine_limit (series "m3/s" scenario2)).
  - discriminate.
  - now vm_compute.
  - intros o [<-|[<-|[<-|[]]]]; discriminate.
Defined.
